(** * SpeedTest: the measurement engine of the device test app

    A shallow embedding of [src/components/SpeedTest/SpeedTest.tsx]
    (the [Root] provider: [fetchNetworkInfo], [runTest], [runPingTest],
    [runDownloadTest], [runUploadTest]; of the view, [useSpeed],
    [Controls] and [ErrorMessage]) and the properties its specification
    states about it, followed by further properties of the code.

    Reading conventions.
    - A JavaScript [number] is the type [number] below: the finite values
      are exact rationals, next to [+Infinity], [-Infinity] and [NaN].
      Operations on finite values are exact (the rounding of binary64 and
      its signed zero are left out); operations that meet a special value
      or divide by zero follow IEEE 754 as JavaScript does.
    - The React state setters are effects: a run of an [async] function is
      the list of setter calls it makes, in order, with its completion.
      The session after each call is obtained by replaying the list
      ([exec], [states]); the sessions React renders to an observer are
      among them (the calls made between two awaits are rendered
      together), so what holds of all of them holds of what is observed.
    - Everything the environment decides (clock readings, whether a
      [fetch] settles with a response or a rejection, the chunks of the
      response body, the draws of [Math.random]) is an input, the
      [World]. Every awaited operation of a [World] settles. *)

From stdpp Require Import base numbers list strings gmap.
From Stdlib Require Import Ascii QArith Qcanon Qround Lia.
From Stdlib Require Qcabs DecimalString DecimalN DecimalPos.
From Stdlib Require Import Sorted.
From Equations Require Import Equations.

Local Open Scope Z_scope.

(** ** JavaScript numbers *)

Inductive number : Type :=
| Fin (q : Qc)
| PInf
| NInf
| NaN.

Definition ofZ (z : Z) : number := Fin (Qc_of_Z z).
Definition ofN (n : N) : number := ofZ (Z.of_N n).
Definition ofNat (n : nat) : number := ofZ (Z.of_nat n).

Definition Qc_sgn (q : Qc) : comparison := (this q ?= 0)%Q.
Definition Qc_ltb (a b : Qc) : bool :=
  match (this a ?= this b)%Q with Lt => true | _ => false end.
Definition Qc_leb (a b : Qc) : bool :=
  match (this a ?= this b)%Q with Gt => false | _ => true end.
Definition Qc_eqb (a b : Qc) : bool :=
  match (this a ?= this b)%Q with Eq => true | _ => false end.

Definition number_eqb (x y : number) : bool :=
  match x, y with
  | Fin a, Fin b => Qc_eqb a b
  | PInf, PInf | NInf, NInf | NaN, NaN => true
  | _, _ => false
  end.

Module Number.

(** [-x] *)
Definition neg (x : number) : number :=
  match x with
  | Fin a => Fin (- a)%Qc
  | PInf => NInf
  | NInf => PInf
  | NaN => NaN
  end.

(** [x + y] *)
Definition add (x y : number) : number :=
  match x, y with
  | NaN, _ | _, NaN => NaN
  | Fin a, Fin b => Fin (a + b)%Qc
  | PInf, NInf | NInf, PInf => NaN
  | PInf, _ | _, PInf => PInf
  | NInf, _ | _, NInf => NInf
  end.

(** [x - y] *)
Definition sub (x y : number) : number := add x (neg y).

(** The infinity of the sign of [s], read as the sign of a product or a
    quotient; a zero factor gives [NaN]. *)
Definition signed_inf (s : comparison) : number :=
  match s with Gt => PInf | Lt => NInf | Eq => NaN end.

(** [x * y] *)
Definition mul (x y : number) : number :=
  match x, y with
  | NaN, _ | _, NaN => NaN
  | Fin a, Fin b => Fin (a * b)%Qc
  | PInf, Fin b | Fin b, PInf => signed_inf (Qc_sgn b)
  | NInf, Fin b | Fin b, NInf => signed_inf (CompOpp (Qc_sgn b))
  | PInf, PInf | NInf, NInf => PInf
  | PInf, NInf | NInf, PInf => NInf
  end.

(** [x / y]; a zero divisor is the positive zero. *)
Definition div (x y : number) : number :=
  match x, y with
  | NaN, _ | _, NaN => NaN
  | Fin a, Fin b =>
      match Qc_sgn b with
      | Eq => signed_inf (Qc_sgn a)
      | _ => Fin (a / b)%Qc
      end
  | Fin _, (PInf | NInf) => Fin 0%Qc
  | PInf, Fin b => match Qc_sgn b with Lt => NInf | _ => PInf end
  | NInf, Fin b => match Qc_sgn b with Lt => PInf | _ => NInf end
  | (PInf | NInf), (PInf | NInf) => NaN
  end.

(** [x < y]: false as soon as one side is [NaN]. *)
Definition lt (x y : number) : bool :=
  match x, y with
  | NaN, _ | _, NaN => false
  | Fin a, Fin b => Qc_ltb a b
  | NInf, (Fin _ | PInf) => true
  | Fin _, PInf => true
  | _, _ => false
  end.

End Number.

Declare Scope js_scope.
Delimit Scope js_scope with js.
Bind Scope js_scope with number.
Infix "+" := Number.add : js_scope.
Infix "-" := Number.sub : js_scope.
Infix "*" := Number.mul : js_scope.
Infix "/" := Number.div : js_scope.
Infix "<?" := Number.lt : js_scope.

Module Math.

(** [Math.abs(x)] *)
Definition abs (x : number) : number :=
  match x with
  | Fin a => Fin (if Qc_ltb a 0%Qc then - a else a)%Qc
  | PInf | NInf => PInf
  | NaN => NaN
  end.

(** [Math.floor(x)] *)
Definition floor (x : number) : number :=
  match x with
  | Fin a => ofZ (Qfloor (this a))
  | _ => x
  end.

(** [Math.round(x)]: the nearest integer, a tie going up. *)
Definition round (x : number) : number :=
  match x with
  | Fin a => ofZ (Qfloor (this a + (1 # 2)))
  | _ => x
  end.

(** One step of [Math.min]: the smaller of the running minimum and the
    next argument, [NaN] as soon as one of them is. *)
Definition min2 (lowest x : number) : number :=
  match lowest, x with
  | NaN, _ | _, NaN => NaN
  | _, _ => if Number.lt x lowest then x else lowest
  end.

(** [Math.min(...args)]; [+Infinity] without arguments. *)
Definition min (args : list number) : number :=
  fold_left min2 args PInf.

End Math.

(** ** Strings read as numbers: the unary [+] on a string

    [StringToNumber] of ECMAScript on strings of one-byte characters
    (a header value is such a string): surrounding white space is dropped,
    the empty string is [0], a decimal literal with an optional sign,
    fraction and exponent, [Infinity], and the unsigned [0x], [0o] and
    [0b] integers have their value, and anything else is [NaN]. *)

Module StringToNumber.

Definition isWhiteSpace (c : ascii) : bool :=
  let n := N_of_ascii c in
  ((n =? 9) || (n =? 10) || (n =? 11) || (n =? 12) || (n =? 13)
   || (n =? 32) || (n =? 160))%N.

Fixpoint dropWhile (p : ascii -> bool) (l : list ascii) : list ascii :=
  match l with
  | c :: r => if p c then dropWhile p r else l
  | [] => []
  end.

Definition trim (l : list ascii) : list ascii :=
  rev (dropWhile isWhiteSpace (rev (dropWhile isWhiteSpace l))).

(** The value of [c] as a digit of the given radix. *)
Definition digitValue (radix : Z) (c : ascii) : option Z :=
  let n := Z.of_N (N_of_ascii c) in
  let v :=
    if (48 <=? n) && (n <=? 57) then Some (n - 48)
    else if (97 <=? n) && (n <=? 102) then Some (n - 87)
    else if (65 <=? n) && (n <=? 70) then Some (n - 55)
    else None in
  match v with
  | Some d => if d <? radix then Some d else None
  | None => None
  end.

(** The longest prefix of digits, with what follows it. *)
Fixpoint spanDigits (radix : Z) (l : list ascii) : list Z * list ascii :=
  match l with
  | c :: r =>
      match digitValue radix c with
      | Some d => let '(ds, rest) := spanDigits radix r in (d :: ds, rest)
      | None => ([], l)
      end
  | [] => ([], [])
  end.

Definition digitsValue (radix : Z) (ds : list Z) : Z :=
  fold_left (fun acc d => acc * radix + d) ds 0.

Definition pow10 (e : Z) : Qc :=
  if 0 <=? e then Qc_of_Z (10 ^ e) else (/ Qc_of_Z (10 ^ (- e)))%Qc.

(** [ExponentPart], when the literal has one: [None] when what follows
    the mantissa is not an exponent part. *)
Definition exponentPart (l : list ascii) : option Z :=
  match l with
  | [] => Some 0
  | c :: r =>
      if (N_of_ascii c =? 101)%N || (N_of_ascii c =? 69)%N then
        let '(sign, r') :=
          match r with
          | s :: r' =>
              if (N_of_ascii s =? 43)%N then (1, r')
              else if (N_of_ascii s =? 45)%N then (-1, r')
              else (1, r)
          | [] => (1, r)
          end in
        match spanDigits 10 r' with
        | ((_ :: _) as ds, []) => Some (sign * digitsValue 10 ds)
        | _ => None
        end
      else None
  end.

(** [StrUnsignedDecimalLiteral] *)
Definition unsignedDecimal (l : list ascii) : number :=
  if bool_decide (l = String.list_ascii_of_string "Infinity") then PInf
  else
    let '(ints, rest) := spanDigits 10 l in
    let '(fracs, rest', dot) :=
      match rest with
      | c :: r =>
          if (N_of_ascii c =? 46)%N
          then let '(fs, r') := spanDigits 10 r in (fs, r', true)
          else ([], rest, false)
      | [] => ([], [], false)
      end in
    match ints, fracs with
    | [], [] => NaN
    | _, _ =>
        match exponentPart rest' with
        | Some e =>
            Fin (Qc_of_Z (digitsValue 10 (ints ++ fracs))
                 * pow10 (e - Z.of_nat (length fracs)))%Qc
        | None => NaN
        end
    end.

(** [NonDecimalIntegerLiteral] of the given radix, after its prefix. *)
Definition nonDecimal (radix : Z) (l : list ascii) : number :=
  match spanDigits radix l with
  | ((_ :: _) as ds, []) => ofZ (digitsValue radix ds)
  | _ => NaN
  end.

Definition strNumericLiteral (l : list ascii) : number :=
  match l with
  | [] => ofZ 0
  | c :: r =>
      let n := N_of_ascii c in
      if (n =? 43)%N then unsignedDecimal r
      else if (n =? 45)%N then Number.neg (unsignedDecimal r)
      else
        match r with
        | p :: r' =>
            let m := N_of_ascii p in
            if (n =? 48)%N && ((m =? 120) || (m =? 88))%N then nonDecimal 16 r'
            else if (n =? 48)%N && ((m =? 111) || (m =? 79))%N then nonDecimal 8 r'
            else if (n =? 48)%N && ((m =? 98) || (m =? 66))%N then nonDecimal 2 r'
            else unsignedDecimal l
        | [] => unsignedDecimal l
        end
  end.

Definition toNumber (s : string) : number :=
  strNumericLiteral (trim (String.list_ascii_of_string s)).

End StringToNumber.

(** ** JavaScript values: what [response.json()] resolves to *)

#[warnings="-register-all"] Inductive JSValue : Type :=
| JUndefined
| JNull
| JBool (b : bool)
| JNum (n : number)
| JStr (s : string)
| JArr (items : list JSValue)
| JObj (props : gmap string JSValue).

(** What an awaited operation or an expression throws. *)
Inductive Exn : Type :=
| Rejected                (* a promise of the environment was rejected *)
| TypeError               (* a property of [undefined] or [null] was read *)
| Error (message : string).

Inductive Completion (A : Type) : Type :=
| Normal (a : A)
| Throw (e : Exn).
Arguments Normal {A} a.
Arguments Throw {A} e.

(** [ToBoolean] *)
Definition truthy (v : JSValue) : bool :=
  match v with
  | JUndefined | JNull => false
  | JBool b => b
  | JNum (Fin q) => negb (Qc_eqb q 0%Qc)
  | JNum NaN => false
  | JNum _ => true
  | JStr s => negb (bool_decide (s = ""))
  | JArr _ | JObj _ => true
  end.

(** [a || b] *)
Definition or_else (a b : JSValue) : JSValue := if truthy a then a else b.

(** [v.name], for a name that only an own property can carry (the names
    read here, [success], [ip], [isp] and [connection], are not inherited
    by any array or primitive). *)
Definition getProp (v : JSValue) (name : string) : Completion JSValue :=
  match v with
  | JUndefined | JNull => Throw TypeError
  | JObj props => Normal (default JUndefined (props !! name))
  | _ => Normal JUndefined
  end.

(** ** The session: the state of [Root] *)

Inductive Phase : Type := Idle | Ping | Download | Upload | Complete.

Record IpInfo : Type := { ip : JSValue; isp : JSValue }.

Record Session : Type := {
  downloadSpeed : option number;
  uploadSpeed : option number;
  ping : option number;
  jitter : option number;
  ipInfo : option IpInfo;
  isTesting : bool;
  progress : number;
  phase : Phase;
  error : option string
}.

(** The [useState] initial values. *)
Definition initialSession : Session := {|
  downloadSpeed := None; uploadSpeed := None; ping := None; jitter := None;
  ipInfo := None; isTesting := false; progress := ofZ 0; phase := Idle;
  error := None
|}.

(** The effects of the component: the calls of its state setters and of
    [console.error]. *)
Inductive Effect : Type :=
| SetDownloadSpeed (v : option number)
| SetUploadSpeed (v : option number)
| SetPing (v : option number)
| SetJitter (v : option number)
| SetIpInfo (v : option IpInfo)
| SetIsTesting (v : bool)
| SetProgress (v : number)
| SetPhase (v : Phase)
| SetError (v : option string)
| ConsoleError.

Definition apply_effect (s : Session) (e : Effect) : Session :=
  match e with
  | SetDownloadSpeed v =>
      {| downloadSpeed := v; uploadSpeed := uploadSpeed s; ping := ping s;
         jitter := jitter s; ipInfo := ipInfo s; isTesting := isTesting s;
         progress := progress s; phase := phase s; error := error s |}
  | SetUploadSpeed v =>
      {| downloadSpeed := downloadSpeed s; uploadSpeed := v; ping := ping s;
         jitter := jitter s; ipInfo := ipInfo s; isTesting := isTesting s;
         progress := progress s; phase := phase s; error := error s |}
  | SetPing v =>
      {| downloadSpeed := downloadSpeed s; uploadSpeed := uploadSpeed s; ping := v;
         jitter := jitter s; ipInfo := ipInfo s; isTesting := isTesting s;
         progress := progress s; phase := phase s; error := error s |}
  | SetJitter v =>
      {| downloadSpeed := downloadSpeed s; uploadSpeed := uploadSpeed s; ping := ping s;
         jitter := v; ipInfo := ipInfo s; isTesting := isTesting s;
         progress := progress s; phase := phase s; error := error s |}
  | SetIpInfo v =>
      {| downloadSpeed := downloadSpeed s; uploadSpeed := uploadSpeed s; ping := ping s;
         jitter := jitter s; ipInfo := v; isTesting := isTesting s;
         progress := progress s; phase := phase s; error := error s |}
  | SetIsTesting v =>
      {| downloadSpeed := downloadSpeed s; uploadSpeed := uploadSpeed s; ping := ping s;
         jitter := jitter s; ipInfo := ipInfo s; isTesting := v;
         progress := progress s; phase := phase s; error := error s |}
  | SetProgress v =>
      {| downloadSpeed := downloadSpeed s; uploadSpeed := uploadSpeed s; ping := ping s;
         jitter := jitter s; ipInfo := ipInfo s; isTesting := isTesting s;
         progress := v; phase := phase s; error := error s |}
  | SetPhase v =>
      {| downloadSpeed := downloadSpeed s; uploadSpeed := uploadSpeed s; ping := ping s;
         jitter := jitter s; ipInfo := ipInfo s; isTesting := isTesting s;
         progress := progress s; phase := v; error := error s |}
  | SetError v =>
      {| downloadSpeed := downloadSpeed s; uploadSpeed := uploadSpeed s; ping := ping s;
         jitter := jitter s; ipInfo := ipInfo s; isTesting := isTesting s;
         progress := progress s; phase := phase s; error := v |}
  | ConsoleError => s
  end.

(** The session after a list of effects, and every session on the way:
    [states s es] lists the session after each effect of [es]. *)
Definition exec (s : Session) (es : list Effect) : Session :=
  fold_left apply_effect es s.

Fixpoint states (s : Session) (es : list Effect) : list Session :=
  match es with
  | [] => []
  | e :: es' => apply_effect s e :: states (apply_effect s e) es'
  end.

(** ** Asynchronous code: effects in order, then a completion *)

Definition Async (A : Type) : Type := list Effect * Completion A.

Definition ret {A} (a : A) : Async A := ([], Normal a).

Definition bind {A B} (m : Async A) (k : A -> Async B) : Async B :=
  match m with
  | (es, Normal a) => let '(es', c) := k a in (es ++ es', c)
  | (es, Throw e) => (es, Throw e)
  end.

Definition emit (e : Effect) : Async unit := ([e], Normal tt).

Definition throw {A} (e : Exn) : Async A := ([], Throw e).

(** [await p] for a promise whose settlement is known. *)
Definition await {A} (p : Completion A) : Async A := ([], p).

(** [try { body } catch (e) { handler }] *)
Definition try_catch {A} (body : Async A) (handler : Exn -> Async A) : Async A :=
  match body with
  | (es, Normal a) => (es, Normal a)
  | (es, Throw e) => let '(es', c) := handler e in (es ++ es', c)
  end.

Definition trace {A} (m : Async A) : list Effect := fst m.
Definition completion {A} (m : Async A) : Completion A := snd m.

Declare Scope async_scope.
Delimit Scope async_scope with async.
Notation "x <- m ;; k" := (bind m (fun x => k))
  (at level 100, m at next level, right associativity) : async_scope.
Notation "m ;; k" := (bind m (fun _ => k))
  (at level 100, right associativity) : async_scope.
Local Open Scope async_scope.

(** ** The environment of one mounted component and one run *)

(** One latency probe: the reading of [performance.now()] before the
    [fetch], and how the [fetch] settles: resolved, with the reading of
    [performance.now()] taken right after, or rejected. *)
Record PingProbe : Type := {
  probeStart : Qc;
  probeFetch : Completion Qc
}.

(** What the successive [reader.read()] calls of a response body settle
    with: a chunk of [byteLength] bytes, the end of the stream, or a
    rejection. *)
Inductive BodyStream : Type :=
| StreamDone
| StreamError
| StreamChunk (byteLength : N) (rest : BodyStream).

Record Response : Type := {
  ok : bool;
  contentLengthHeader : option string;   (* headers.get('Content-Length') *)
  body : option BodyStream               (* response.body *)
}.

Record World : Type := {
  (* fetch('https://ipwho.is/'), then response.json() *)
  networkInfoFetch : Completion (Completion JSValue);
  (* the probe of iteration i of the ping loop *)
  pingProbe : nat -> PingProbe;
  (* performance.now() when runDownloadTest starts *)
  downloadStartTime : Qc;
  (* the download fetch *)
  downloadFetch : Completion Response;
  (* performance.now() when the body has been read *)
  downloadEndTime : Qc;
  (* Math.random() of the download simulation and of the upload *)
  downloadRandom : Qc;
  uploadRandom : Qc
}.

(** ** The program *)

Definition fetchNetworkInfo (w : World) : Async unit :=
  try_catch
    (response <- await (networkInfoFetch w) ;;
     data <- await response ;;
     success <- await (getProp data "success") ;;
     if truthy success then
       ip_ <- await (getProp data "ip") ;;
       connection <- await (getProp data "connection") ;;
       connection_isp <- await (getProp connection "isp") ;;
       isp_ <- (if truthy connection_isp then ret connection_isp
                else data_isp <- await (getProp data "isp") ;;
                     ret (or_else data_isp (JStr "Unknown ISP"))) ;;
       emit (SetIpInfo (Some {| ip := ip_; isp := isp_ |}))
     else ret tt)
    (fun err => emit ConsoleError).

Definition iterations : nat := 5.

(** The body of the ping loop at iteration [i]. *)
Definition pingIteration (w : World) (i : nat) (pings : list number)
  : Async (list number) :=
  let start := Fin (probeStart (pingProbe w i)) in
  pings <- try_catch
             (end_ <- await (probeFetch (pingProbe w i)) ;;
              ret (pings ++ [(Fin end_ - start)%js]))
             (fun e => emit ConsoleError ;; ret pings) ;;
  (* await new Promise(r => setTimeout(r, 100)) *)
  ret pings.

(** [for (let i = ...; i < ...; i++)], with [n] iterations left. *)
Fixpoint pingLoop (w : World) (i n : nat) (pings : list number)
  : Async (list number) :=
  match n with
  | O => ret pings
  | S n' => pings <- pingIteration w i pings ;; pingLoop w (S i) n' pings
  end.

Definition runPingTest (w : World) : Async unit :=
  pings <- pingLoop w 0 iterations [] ;;
  if (0 <? length pings)%nat then
    let minPing := Math.min pings in
    emit (SetPing (Some (Math.round minPing))) ;;
    let mean :=
      (fold_left (fun a b => a + b) pings (ofZ 0) / ofNat (length pings))%js in
    let jitterVal :=
      (fold_left (fun a b => a + Math.abs (b - mean)) pings (ofZ 0)
       / ofNat (length pings))%js in
    emit (SetJitter (Some (Math.round jitterVal)))
  else ret tt.

(** The callback of [setInterval(..., 100)] of a simulation, run at every
    tick until it clears the interval and resolves the promise with
    [result]. [currentProgress] only ever holds the integers 0, 5, ...,
    100: it is an integer here, and the loop ends because each tick
    brings it closer to 100. *)
Equations? intervalTicks (result : number) (currentProgress : Z)
  : Async number by wf (Z.to_nat (100 - currentProgress)) lt :=
  intervalTicks result currentProgress
    with Z_lt_ge_dec (currentProgress + 5) 100 => {
    | left _ =>
        emit (SetProgress (ofZ (currentProgress + 5))) ;;
        intervalTicks result (currentProgress + 5)
    | right _ =>
        emit (SetProgress (ofZ (currentProgress + 5))) ;;
        ret result }.
Proof. lia. Qed.

(** [Math.floor(Math.random() * (high - low + 1)) + low] *)
Definition randomInRange (random : Qc) (low high : Z) : number :=
  (Math.floor (Fin random * ofZ (high - low + 1)) + ofZ low)%js.

(** The read loop of the download: [while (true)] over the reads of the
    body, returning the bytes received when the stream is done. *)
Fixpoint readLoop (reader : BodyStream) (contentLength receivedLength : number)
  : Async number :=
  match reader with
  | StreamDone => ret receivedLength
  | StreamError => throw Rejected
  | StreamChunk byteLength rest =>
      let receivedLength := (receivedLength + ofN byteLength)%js in
      emit (SetProgress
              (Math.min [ofZ 100; (receivedLength / contentLength * ofZ 100)%js])) ;;
      readLoop rest contentLength receivedLength
  end.

(** [+(response.headers.get('Content-Length') || '5000000')] *)
Definition contentLengthOf (response : Response) : number :=
  StringToNumber.toNumber
    match contentLengthHeader response with
    | Some h => if bool_decide (h = "") then "5000000" else h
    | None => "5000000"
    end.

Definition runDownloadTest (w : World) : Async number :=
  let startTime := Fin (downloadStartTime w) in
  try_catch
    (match downloadFetch w with
     | Normal response =>
         if ok response then
           reader <- match body response with
                     | Some reader => ret reader
                     | None => throw (Error "No reader")
                     end ;;
           let contentLength := contentLengthOf response in
           receivedLength <- readLoop reader contentLength (ofZ 0) ;;
           let endTime := Fin (downloadEndTime w) in
           let durationInSeconds := ((endTime - startTime) / ofZ 1000)%js in
           let bitsLoaded := (receivedLength * ofZ 8)%js in
           let speedBps := (bitsLoaded / durationInSeconds)%js in
           let speedMbps := (speedBps / (ofZ 1024 * ofZ 1024))%js in
           ret (Math.round speedMbps)
         else
           (* !response.ok *)
           intervalTicks (randomInRange (downloadRandom w) 50 150) 0
     | Throw _ =>
         (* .catch(() => { simulated = true; return null; }) *)
         intervalTicks (randomInRange (downloadRandom w) 50 150) 0
     end)
    (fun err =>
       emit ConsoleError ;;
       emit (SetError (Some "Speed test failed. Please try again.")) ;;
       ret (ofZ 0)).

Definition runUploadTest (w : World) : Async number :=
  intervalTicks (randomInRange (uploadRandom w) 10 50) 0.

Definition runTest (w : World) : Async unit :=
  emit (SetIsTesting true) ;;
  emit (SetError None) ;;
  emit (SetDownloadSpeed None) ;;
  emit (SetUploadSpeed None) ;;
  emit (SetPing None) ;;
  emit (SetJitter None) ;;
  emit (SetProgress (ofZ 0)) ;;
  emit (SetPhase Ping) ;;
  runPingTest w ;;
  emit (SetPhase Download) ;;
  emit (SetProgress (ofZ 0)) ;;
  dlSpeed <- runDownloadTest w ;;
  emit (SetDownloadSpeed (Some dlSpeed)) ;;
  emit (SetPhase Upload) ;;
  emit (SetProgress (ofZ 0)) ;;
  ulSpeed <- runUploadTest w ;;
  emit (SetUploadSpeed (Some ulSpeed)) ;;
  emit (SetPhase Complete) ;;
  emit (SetIsTesting false).

(** ** The words of the specification

    The quantities the specification names, over exact rationals and
    byte counts, to be compared with what the program computes. *)

Module Spec.

(** The latency sample of a probe: one per probe whose request went
    through. *)
Definition sample (p : PingProbe) : option Qc :=
  match probeFetch p with
  | Normal end_ => Some (end_ - probeStart p)%Qc
  | Throw _ => None
  end.

(** The samples of a run: those of its five probes, in order. *)
Definition samples (w : World) : list Qc :=
  omap (fun i => sample (pingProbe w i)) (seq 0 5).

(** [round]: the nearest integer, a half going up. *)
Definition round (q : Qc) : Z := Qfloor (q + Q2Qc (1 # 2))%Qc.

(** [min] of a non-empty list [x :: l]. *)
Fixpoint minimum (x : Qc) (l : list Qc) : Qc :=
  match l with
  | [] => x
  | y :: l' => let m := minimum y l' in if Qc_leb x m then x else m
  end.

Definition sum (l : list Qc) : Qc := foldr Qcplus 0%Qc l.

Definition mean (l : list Qc) : Qc :=
  (sum l / Qc_of_Z (Z.of_nat (length l)))%Qc.

(** [mean(|sample_i - mean(samples)|)] *)
Definition meanAbsDev (l : list Qc) : Qc :=
  mean (map (fun x => Qcabs.Qcabs (x - mean l)) l).

(** A body stream ends either done or with a failed read. *)
Fixpoint completes (reader : BodyStream) : bool :=
  match reader with
  | StreamDone => true
  | StreamError => false
  | StreamChunk _ rest => completes rest
  end.

(** The bytes received after each chunk of a body, in order, counting
    from [received]. *)
Fixpoint runningTotals (received : N) (reader : BodyStream) : list N :=
  match reader with
  | StreamChunk byteLength rest =>
      (received + byteLength)%N :: runningTotals (received + byteLength)%N rest
  | _ => []
  end.

(** The bytes of a whole body. *)
Fixpoint receivedBytes (reader : BodyStream) : N :=
  match reader with
  | StreamChunk byteLength rest => (byteLength + receivedBytes rest)%N
  | _ => 0%N
  end.

(** [min(100, receivedBytes / contentLength * 100)] *)
Definition progressAt (contentLength : number) (received : N) : number :=
  Math.min [ofZ 100; (ofN received / contentLength * ofZ 100)%js].

(** [round(receivedBytes * 8 / elapsedSeconds / 1,048,576)] *)
Definition throughputMbps (received : N) (elapsedSeconds : number) : number :=
  Math.round (ofN received * ofZ 8 / elapsedSeconds / ofZ 1048576)%js.

(** The phases a list of sessions goes through: their phases, a phase
    that lasts over several sessions counted once. *)
Definition Phase_eqb (a b : Phase) : bool :=
  match a, b with
  | Idle, Idle | Ping, Ping | Download, Download
  | Upload, Upload | Complete, Complete => true
  | _, _ => false
  end.

Fixpoint phaseChanges (current : Phase) (l : list Session) : list Phase :=
  match l with
  | [] => []
  | s :: l' =>
      if Phase_eqb (phase s) current then phaseChanges current l'
      else phase s :: phaseChanges (phase s) l'
  end.

(** The phases of a run that starts in session [s0] and makes the
    effects [es]. *)
Definition phasesVisited (s0 : Session) (es : list Effect) : list Phase :=
  phase s0 :: phaseChanges (phase s0) (states s0 es).

End Spec.

(** A world whose probes take the given times (a missing one fails), and
    whose download is a body of the given chunks read in [seconds]. *)
Definition exampleWorld (pings : list Z) (chunks : list N) (millis : Z) : World := {|
  networkInfoFetch := Throw Rejected;
  pingProbe := fun i =>
    {| probeStart := Qc_of_Z (1000 + 200 * Z.of_nat i);
       probeFetch :=
         match pings !! i with
         | Some d => Normal (Qc_of_Z (1000 + 200 * Z.of_nat i + d))
         | None => Throw Rejected
         end |};
  downloadStartTime := Qc_of_Z 5000;
  downloadFetch :=
    Normal {| ok := true; contentLengthHeader := None;
              body := Some (foldr StreamChunk StreamDone chunks) |};
  downloadEndTime := Qc_of_Z (5000 + millis);
  downloadRandom := Q2Qc (1 # 2);
  uploadRandom := Q2Qc (1 # 2)
|}.

(** ** Auxiliary definitions

    The vocabulary of the properties below: the effects of each part of a
    run, the state variables an effect writes, and the worlds of the
    examples. *)

(** The [console.error] calls of the probes [i .. i + n - 1]: one per
    failed probe. *)
Definition probeErrors (w : World) (i n : nat) : list Effect :=
  flat_map (fun j => match Spec.sample (pingProbe w j) with
                     | Some _ => []
                     | None => [ConsoleError]
                     end) (seq i n).

(** What the ping phase stores from its samples. *)
Definition derived (samples : list Qc) : list Effect :=
  match samples with
  | [] => []
  | x :: l =>
      [SetPing (Some (ofZ (Spec.round (Spec.minimum x l))));
       SetJitter (Some (ofZ (Spec.round (Spec.meanAbsDev (x :: l)))))]
  end.

(** The progress a simulation shows: 5, 10, ..., 100. *)
Definition tickEffects : list Effect :=
  map (fun z => SetProgress (ofZ z))
    [5; 10; 15; 20; 25; 30; 35; 40; 45; 50; 55; 60; 65; 70; 75; 80; 85; 90; 95; 100].

(** The integer a simulation draws from [random]. *)
Definition drawn (random : Qc) (low high : Z) : Z :=
  Qfloor (this (random * Qc_of_Z (high - low + 1))%Qc) + low.

Definition streamFailure : list Effect :=
  [ConsoleError; SetError (Some "Speed test failed. Please try again.")].

(** The progress updates of reading [reader], [received] bytes in. *)
Definition chunkEffects (contentLength : number) (received : N) (reader : BodyStream)
  : list Effect :=
  map (fun n => SetProgress (Spec.progressAt contentLength n))
    (Spec.runningTotals received reader).

(** The initial request failed: it was rejected, or its response is not
    [ok]. *)
Definition initialFailure (w : World) : bool :=
  match downloadFetch w with
  | Normal response => negb (ok response)
  | Throw _ => true
  end.

(** The seconds between the two clock readings of the download. *)
Definition elapsedSeconds (w : World) : number :=
  ((Fin (downloadEndTime w) - Fin (downloadStartTime w)) / ofZ 1000)%js.

(** The calls that clear the results of the run before. *)
Definition resets : list Effect :=
  [SetIsTesting true; SetError None; SetDownloadSpeed None; SetUploadSpeed None;
   SetPing None; SetJitter None; SetProgress (ofZ 0)].

(** What the upload stores. *)
Definition uploadSpeedOf (w : World) : number := ofZ (drawn (uploadRandom w) 10 50).

(** The effects of a run whose download makes the effects [download] and
    returns [dlSpeed]. *)
Definition runEffects (w : World) (download : list Effect) (dlSpeed : number)
  : list Effect :=
  resets ++ [SetPhase Ping]
  ++ trace (runPingTest w)
  ++ [SetPhase Download; SetProgress (ofZ 0)]
  ++ download
  ++ [SetDownloadSpeed (Some dlSpeed); SetPhase Upload; SetProgress (ofZ 0)]
  ++ tickEffects
  ++ [SetUploadSpeed (Some (uploadSpeedOf w)); SetPhase Complete; SetIsTesting false].

Inductive Var : Type :=
| VDownloadSpeed | VUploadSpeed | VPing | VJitter | VIpInfo
| VIsTesting | VProgress | VPhase | VError.

Definition written (e : Effect) : option Var :=
  match e with
  | SetDownloadSpeed _ => Some VDownloadSpeed
  | SetUploadSpeed _ => Some VUploadSpeed
  | SetPing _ => Some VPing
  | SetJitter _ => Some VJitter
  | SetIpInfo _ => Some VIpInfo
  | SetIsTesting _ => Some VIsTesting
  | SetProgress _ => Some VProgress
  | SetPhase _ => Some VPhase
  | SetError _ => Some VError
  | ConsoleError => None
  end.

(** The effects [es] write no variable outside [vars]. *)
Definition only (vars : Var -> bool) (es : list Effect) : Prop :=
  Forall (fun e => match written e with
                   | Some v => vars v = true
                   | None => True
                   end) es.

(** [s'] has the value of [s] in every variable outside [vars]. *)
Record agree_off (vars : Var -> bool) (s s' : Session) : Prop := {
  agree_downloadSpeed : vars VDownloadSpeed = false -> downloadSpeed s' = downloadSpeed s;
  agree_uploadSpeed : vars VUploadSpeed = false -> uploadSpeed s' = uploadSpeed s;
  agree_ping : vars VPing = false -> ping s' = ping s;
  agree_jitter : vars VJitter = false -> jitter s' = jitter s;
  agree_ipInfo : vars VIpInfo = false -> ipInfo s' = ipInfo s;
  agree_isTesting : vars VIsTesting = false -> isTesting s' = isTesting s;
  agree_progress : vars VProgress = false -> progress s' = progress s;
  agree_phase : vars VPhase = false -> phase s' = phase s;
  agree_error : vars VError = false -> error s' = error s
}.

Definition pingVars (v : Var) : bool :=
  match v with VPing | VJitter => true | _ => false end.
Definition downloadVars (v : Var) : bool :=
  match v with VProgress | VError => true | _ => false end.
Definition progressVars (v : Var) : bool :=
  match v with VProgress => true | _ => false end.

(** What the ping phase leaves in [ping] and [jitter]. *)
Definition pingOf (w : World) : option number :=
  match Spec.samples w with
  | [] => None
  | x :: l => Some (ofZ (Spec.round (Spec.minimum x l)))
  end.

Definition jitterOf (w : World) : option number :=
  match Spec.samples w with
  | [] => None
  | x :: l => Some (ofZ (Spec.round (Spec.meanAbsDev (x :: l))))
  end.

(** The part of a session the run controls. *)
Definition atPoint (s : Session) (ph : Phase) (testing : bool)
    (dl ul p j : option number) : Prop :=
  phase s = ph /\ isTesting s = testing /\ downloadSpeed s = dl
  /\ uploadSpeed s = ul /\ ping s = p /\ jitter s = j.

(** What holds of a session of a run once its phase has been set. *)
Definition inRun (w : World) (s : Session) : Prop :=
  match phase s with
  | Idle => False
  | Ping =>
      isTesting s = true /\ downloadSpeed s = None /\ uploadSpeed s = None
  | Download =>
      isTesting s = true /\ uploadSpeed s = None
      /\ ping s = pingOf w /\ jitter s = jitterOf w
  | Upload =>
      isTesting s = true /\ is_Some (downloadSpeed s)
      /\ ping s = pingOf w /\ jitter s = jitterOf w
  | Complete =>
      is_Some (downloadSpeed s) /\ is_Some (uploadSpeed s)
      /\ ping s = pingOf w /\ jitter s = jitterOf w
  end.

(** The effects of a run after its resets. *)
Definition phaseEffects (w : World) (download : list Effect) (dlSpeed : number)
  : list Effect :=
  [SetPhase Ping]
  ++ trace (runPingTest w)
  ++ [SetPhase Download; SetProgress (ofZ 0)]
  ++ download
  ++ [SetDownloadSpeed (Some dlSpeed); SetPhase Upload; SetProgress (ofZ 0)]
  ++ tickEffects
  ++ [SetUploadSpeed (Some (uploadSpeedOf w)); SetPhase Complete; SetIsTesting false].

Definition ipVars (v : Var) : bool :=
  match v with VIpInfo => true | _ => false end.

(** The effects of [a] and of [b], each in its order, taken from [a]
    where the schedule says [true]. *)
Fixpoint interleave (schedule : list bool) (a b : list Effect) : list Effect :=
  match schedule, a, b with
  | true :: sch, e :: a', _ => e :: interleave sch a' b
  | false :: sch, _, e :: b' => e :: interleave sch a b'
  | _ :: sch, [], _ => b
  | _ :: sch, _, [] => a
  | [], _, _ => a ++ b
  end.

(** The phases a list of effects sets, in order. *)
Definition phaseWrites (es : list Effect) : list Phase :=
  omap (fun e => match e with SetPhase p => Some p | _ => None end) es.

(** [l] without the phases that repeat the one before. *)
Fixpoint compress (current : Phase) (l : list Phase) : list Phase :=
  match l with
  | [] => []
  | p :: l' =>
      if Spec.Phase_eqb p current then compress current l'
      else p :: compress p l'
  end.

(** A world to run: the probes take 40, 42, 38, 41 and 200 ms, and the
    download reads 10,000,000 bytes in 4 s. *)
Definition world1 : World :=
  exampleWorld [40; 42; 38; 41; 200] [4000000; 6000000]%N 4000.

(** The same with every probe failing. *)
Definition world0 : World := exampleWorld [] [4000000; 6000000]%N 4000.

(** [w] with another outcome of the download request. *)
Definition withDownload (w : World) (fetched : Completion Response) : World := {|
  networkInfoFetch := networkInfoFetch w;
  pingProbe := pingProbe w;
  downloadStartTime := downloadStartTime w;
  downloadFetch := fetched;
  downloadEndTime := downloadEndTime w;
  downloadRandom := downloadRandom w;
  uploadRandom := uploadRandom w
|}.

(** [w] with another outcome of the network information request. *)
Definition withNetworkInfo (w : World) (fetched : Completion (Completion JSValue))
  : World := {|
  networkInfoFetch := fetched;
  pingProbe := pingProbe w;
  downloadStartTime := downloadStartTime w;
  downloadFetch := downloadFetch w;
  downloadEndTime := downloadEndTime w;
  downloadRandom := downloadRandom w;
  uploadRandom := uploadRandom w
|}.

Definition noErrorVars (v : Var) : bool :=
  match v with VError => false | _ => true end.

Definition failingResponse : Response := {|
  ok := true;
  contentLengthHeader := Some "3000";
  body := Some (StreamChunk 1000 (StreamChunk 500 StreamError))
|}.

Definition plainResponse (header : option string) : Response := {|
  ok := true;
  contentLengthHeader := header;
  body := Some (StreamChunk 1000000 StreamDone)
|}.

(** A response of the shape the specification admits, without the
    optional [connection] object. *)
Definition flatResponse : JSValue :=
  JObj (list_to_map [("success", JBool true); ("ip", JStr "203.0.113.7");
                     ("isp", JStr "Example ISP")]).

(** ** Further vocabulary *)

(** The values a list of effects sets the progress to, in order. *)
Definition progressWrites (es : list Effect) : list number :=
  omap (fun e => match e with SetProgress v => Some v | _ => None end) es.

(** The download throws inside its [try]: the response is ok and either
    has no body to read or a body whose reading fails. *)
Definition downloadThrows (w : World) : bool :=
  match downloadFetch w with
  | Normal response =>
      ok response
      && match body response with
         | Some reader => negb (Spec.completes reader)
         | None => true
         end
  | Throw _ => false
  end.

Definition noIpVars (v : Var) : bool :=
  match v with VIpInfo => false | _ => true end.

(** The percentage shown for [n] bytes received of [c]: n / c * 100, and
    100 at most. *)
Definition percent (c : Qc) (n : N) : Qc :=
  if Qc_ltb (Qc_of_Z (Z.of_N n) / c * Qc_of_Z 100)%Qc (Qc_of_Z 100)
  then (Qc_of_Z (Z.of_N n) / c * Qc_of_Z 100)%Qc
  else Qc_of_Z 100.

(** A response that announces 3000 bytes and delivers 3500. *)
Definition longerResponse : Response := {|
  ok := true;
  contentLengthHeader := Some "3000";
  body := Some (StreamChunk 1000 (StreamChunk 2500 StreamDone))
|}.

(** A response whose [connection] object has an empty [isp] next to a
    top-level [isp]. *)
Definition nestedResponse : JSValue :=
  JObj (list_to_map
          [("success", JBool true); ("ip", JStr "203.0.113.7");
           ("isp", JStr "Example ISP");
           ("connection", JObj (list_to_map [("isp", JStr "")]))]).

(** The digits of a decimal numeral, most significant first. *)
Fixpoint digitsOf (d : Decimal.uint) : list Z :=
  match d with
  | Decimal.Nil => []
  | Decimal.D0 l => 0 :: digitsOf l
  | Decimal.D1 l => 1 :: digitsOf l
  | Decimal.D2 l => 2 :: digitsOf l
  | Decimal.D3 l => 3 :: digitsOf l
  | Decimal.D4 l => 4 :: digitsOf l
  | Decimal.D5 l => 5 :: digitsOf l
  | Decimal.D6 l => 6 :: digitsOf l
  | Decimal.D7 l => 7 :: digitsOf l
  | Decimal.D8 l => 8 :: digitsOf l
  | Decimal.D9 l => 9 :: digitsOf l
  end.

(** The characters of a decimal numeral. *)
Definition decimalChars (d : Decimal.uint) : list ascii :=
  String.list_ascii_of_string (DecimalString.NilEmpty.string_of_uint d).

(** ** The view

    What a component renders: [null], a text, or an element with its
    class name, whether it is disabled, its click handler and its
    children. The only handler of the components is [runTest] of the
    context; [styles] is the imported style sheet, from a class to its
    generated name. *)

Inductive Handler : Type := RunTest.

#[warnings="-register-all"] Inductive Node : Type :=
| Null
| Text (s : string)
| Element (tag className : string) (disabled : bool)
          (onClick : option Handler) (children : list Node).

(** [useContext(SpeedContext)]: the session [Root] provides, [undefined]
    outside a [Root]. *)
Definition useSpeed (context : option Session) : Completion Session :=
  match context with
  | Some c => Normal c
  | None => Throw (Error "useSpeed must be used within a SpeedTest.Root")
  end.

Section View.

Variable styles : string -> string.

Definition Controls (context : option Session) : Completion Node :=
  match useSpeed context with
  | Normal c =>
      Normal
        (Element "div" (styles "controls") false None
           [if negb (isTesting c)
            then Element "button" (styles "button") false (Some RunTest)
                   [Text "Start Speed Test"]
            else Element "button" (styles "button" +:+ " " +:+ styles "disabled")
                   true None
                   [Text match phase c with
                         | Ping => "Testing Ping..."
                         | Download => "Testing Download..."
                         | Upload => "Testing Upload..."
                         | _ => "Testing..."
                         end]])
  | Throw e => Throw e
  end.

Definition ErrorMessage (context : option Session) : Completion Node :=
  match useSpeed context with
  | Normal c =>
      Normal
        match error c with
        | Some message =>
            if bool_decide (message = "") then Null
            else Element "p" (styles "error") false None [Text message]
        | None => Null
        end
  | Throw e => Throw e
  end.

End View.

(** The button [Controls] shows while a test runs. *)
Definition busyControls (styles : string -> string) (label : string) : Node :=
  Element "div" (styles "controls") false None
    [Element "button" (styles "button" +:+ " " +:+ styles "disabled") true None
       [Text label]].

(** The effects of a run up to the download. *)
Definition beforeDownload (w : World) : list Effect :=
  [SetDownloadSpeed None; SetUploadSpeed None; SetPing None; SetJitter None;
   SetProgress (ofZ 0); SetPhase Ping]
  ++ trace (runPingTest w) ++ [SetPhase Download; SetProgress (ofZ 0)].

Definition noTestingVars (v : Var) : bool :=
  match v with VIsTesting => false | _ => true end.

(** * Properties *)

(** ** Numbers *)

Lemma Qc_eqb_eq (a b : Qc) : Qc_eqb a b = true <-> a = b.
Proof.
  unfold Qc_eqb. split.
  - destruct (Qcompare_spec (this a) (this b)) as [E | L | G]; try discriminate.
    intros _. apply Qc_is_canon, E.
  - intros ->. now rewrite (proj1 (Qeq_alt _ _) (Qeq_refl _)).
Qed.

Lemma number_eqb_eq (x y : number) : number_eqb x y = true <-> x = y.
Proof.
  destruct x, y; simpl; try (split; (discriminate || reflexivity)).
  rewrite Qc_eqb_eq. split; congruence.
Qed.

Ltac number_compute := apply number_eqb_eq; vm_compute; reflexivity.

Lemma Qc_ltb_lt (a b : Qc) : Qc_ltb a b = true <-> (a < b)%Qc.
Proof.
  unfold Qc_ltb. rewrite Qclt_alt. unfold Qccompare.
  destruct (this a ?= this b)%Q; split; congruence.
Qed.

Lemma Qc_leb_le (a b : Qc) : Qc_leb a b = true <-> (a <= b)%Qc.
Proof.
  unfold Qc_leb. rewrite Qcle_alt. unfold Qccompare.
  destruct (this a ?= this b)%Q; split; congruence.
Qed.

Lemma Qc_ltb_ge (a b : Qc) : Qc_ltb a b = false <-> (b <= a)%Qc.
Proof.
  rewrite <- not_true_iff_false, Qc_ltb_lt. split.
  - apply Qcnot_lt_le.
  - intros H L. exact (Qcle_not_lt _ _ H L).
Qed.

Lemma Qc_sgn_pos (q : Qc) : (0 < q)%Qc -> Qc_sgn q = Gt.
Proof.
  intros H. unfold Qc_sgn.
  pose proof (proj1 (Qlt_alt _ _) H) as H'. change (this 0%Qc) with 0%Q in H'.
  now rewrite <- Qcompare_antisym, H'.
Qed.

Lemma ofZ_add (a b : Z) : (ofZ a + ofZ b)%js = ofZ (a + b).
Proof. unfold ofZ. simpl. rewrite Z2Qc_inj_add. reflexivity. Qed.

Lemma ofN_add (a b : N) : (ofN a + ofN b)%js = ofN (a + b).
Proof. unfold ofN. rewrite ofZ_add, N2Z.inj_add. reflexivity. Qed.

Lemma ofZ_inj (a b : Z) : ofZ a = ofZ b -> a = b.
Proof. unfold ofZ. intros H. apply Z2Qc_inj. congruence. Qed.

Lemma Qfloor_Qc_add (a b : Qc) :
  Qfloor (this (a + b)%Qc) = Qfloor (this a + this b).
Proof. apply Qfloor_comp. simpl. apply Qred_correct. Qed.

Lemma round_Fin (q : Qc) : Math.round (Fin q) = ofZ (Spec.round q).
Proof. unfold Math.round, Spec.round. now rewrite Qfloor_Qc_add. Qed.

(** [Spec.round q] is the integer nearest to [q], the upper one of two. *)
Lemma round_nearest (q : Qc) (z : Z) :
  Spec.round q = z <->
  (Qc_of_Z z - Q2Qc (1 # 2) <= q /\ q < Qc_of_Z z + Q2Qc (1 # 2))%Qc.
Proof.
  unfold Spec.round. set (h := Q2Qc (1 # 2)).
  assert (Hone : forall n, Qc_of_Z (n + 1) = (Qc_of_Z n + h + h)%Qc).
  { intros n. rewrite Z2Qc_inj_add.
    replace (Qc_of_Z 1) with (h + h)%Qc by (apply Qc_is_canon; reflexivity).
    ring. }
  pose proof (Qfloor_le (this (q + h)%Qc)) as Hlo.
  pose proof (Qlt_floor (this (q + h)%Qc)) as Hhi.
  set (f := Qfloor (this (q + h)%Qc)) in *.
  assert (Hlo' : (Qc_of_Z f <= q + h)%Qc) by exact Hlo.
  assert (Hhi' : (q + h < Qc_of_Z (f + 1))%Qc) by exact Hhi.
  split.
  - intros <-. split.
    + apply (proj2 (Qcplus_le_mono_r _ _ h)).
      replace (Qc_of_Z f - h + h)%Qc with (Qc_of_Z f) by ring. exact Hlo'.
    + apply (proj2 (Qcplus_lt_mono_r _ _ h)).
      rewrite <- Hone. exact Hhi'.
  - intros [L U].
    apply (proj1 (Qcplus_le_mono_r _ _ h)) in L.
    replace (Qc_of_Z z - h + h)%Qc with (Qc_of_Z z) in L by ring.
    apply (proj1 (Qcplus_lt_mono_r _ _ h)) in U.
    rewrite <- Hone in U.
    assert (z < f + 1)%Z
      by (apply Z2Qc_inj_lt; eapply Qcle_lt_trans; [exact L | exact Hhi']).
    assert (f < z + 1)%Z
      by (apply Z2Qc_inj_lt; eapply Qcle_lt_trans; [exact Hlo' | exact U]).
    lia.
Qed.

(** [Spec.minimum x l] is the least element of [x :: l]. *)
Lemma minimum_least (x : Qc) (l : list Qc) :
  Spec.minimum x l ∈ x :: l /\ forall y, y ∈ x :: l -> (Spec.minimum x l <= y)%Qc.
Proof.
  revert x. induction l as [| y l IH]; intros x; simpl.
  - split; [left |]. intros y Hy. apply list_elem_of_singleton in Hy as ->.
    apply Qcle_refl.
  - destruct (IH y) as [Hin Hle].
    destruct (Qc_leb x (Spec.minimum y l)) eqn:E.
    + apply Qc_leb_le in E. split; [left |].
      intros z Hz. apply elem_of_cons in Hz as [-> | Hz]; [apply Qcle_refl |].
      eapply Qcle_trans; [exact E | auto].
    + split; [now right |].
      intros z Hz. apply elem_of_cons in Hz as [-> | Hz]; [| auto].
      destruct (Qclt_le_dec (Spec.minimum y l) x) as [L | L].
      * now apply Qclt_le_weak.
      * apply Qc_leb_le in L. congruence.
Qed.

Lemma min2_Fin (m x : Qc) :
  Math.min2 (Fin m) (Fin x) = Fin (if Qc_ltb x m then x else m).
Proof. unfold Math.min2. simpl. now destruct (Qc_ltb x m). Qed.

Lemma fold_min2_least (l : list Qc) (x : Qc) :
  exists m, fold_left Math.min2 (map Fin l) (Fin x) = Fin m /\
            m ∈ x :: l /\ forall y, y ∈ x :: l -> (m <= y)%Qc.
Proof.
  revert x. induction l as [| y l IH]; intros x; cbn [fold_left map].
  - exists x. split; [reflexivity |]. split; [left |].
    intros y Hy. apply list_elem_of_singleton in Hy as ->. apply Qcle_refl.
  - rewrite min2_Fin.
    destruct (Qc_ltb y x) eqn:E.
    + apply Qc_ltb_lt in E.
      destruct (IH y) as (m & Hm & Hin & Hle). exists m.
      split; [exact Hm |]. split; [now right |].
      intros z Hz. apply elem_of_cons in Hz as [-> | Hz]; [| auto].
      eapply Qcle_trans; [apply Hle; left | now apply Qclt_le_weak].
    + apply Qc_ltb_ge in E.
      destruct (IH x) as (m & Hm & Hin & Hle). exists m.
      split; [exact Hm |]. split.
      * apply elem_of_cons in Hin as [-> | Hin]; [left | right; now right].
      * intros z Hz. apply elem_of_cons in Hz as [-> | Hz]; [apply Hle; left |].
        apply elem_of_cons in Hz as [-> | Hz].
        -- eapply Qcle_trans; [apply Hle; left | exact E].
        -- apply Hle. now right.
Qed.

Lemma Math_min_Fin (x : Qc) (l : list Qc) :
  Math.min (map Fin (x :: l)) = Fin (Spec.minimum x l).
Proof.
  unfold Math.min. cbn [fold_left map]. rewrite (ltac:(reflexivity) : Math.min2 PInf (Fin x) = Fin x).
  destruct (fold_min2_least l x) as (m & -> & Hin & Hle).
  destruct (minimum_least x l) as [Hin' Hle'].
  f_equal. apply Qcle_antisym; auto.
Qed.

Lemma fold_add_Fin (l : list Qc) (a : Qc) :
  fold_left (fun a b => (a + b)%js) (map Fin l) (Fin a) = Fin (a + Spec.sum l)%Qc.
Proof.
  revert a. induction l as [| x l IH]; intros a; simpl.
  - f_equal. unfold Spec.sum. simpl. ring.
  - rewrite IH. f_equal. unfold Spec.sum. simpl. ring.
Qed.

Lemma abs_Fin (q : Qc) : Math.abs (Fin q) = Fin (Qcabs.Qcabs q).
Proof.
  unfold Math.abs. f_equal. destruct (Qc_ltb q 0) eqn:E.
  - apply Qc_ltb_lt in E. symmetry. apply Qcabs.Qcabs_neg. now apply Qclt_le_weak.
  - apply Qc_ltb_ge in E. symmetry. now apply Qcabs.Qcabs_pos.
Qed.

Lemma fold_absdev_Fin (l : list Qc) (mean a : Qc) :
  fold_left (fun a b => (a + Math.abs (b - Fin mean))%js) (map Fin l) (Fin a)
  = Fin (a + Spec.sum (map (fun x => Qcabs.Qcabs (x - mean)) l))%Qc.
Proof.
  revert a. induction l as [| x l IH]; intros a; cbn [fold_left map].
  - f_equal. unfold Spec.sum. simpl. ring.
  - change (Fin x - Fin mean)%js with (Fin (x - mean)%Qc).
    rewrite abs_Fin. cbn [Number.add]. rewrite IH. f_equal.
    unfold Spec.sum. cbn [foldr]. ring.
Qed.

Lemma div_ofNat (s : Qc) (n : nat) :
  (0 < n)%nat -> (Fin s / ofNat n)%js = Fin (s / Qc_of_Z (Z.of_nat n))%Qc.
Proof.
  intros H. unfold ofNat, ofZ. simpl.
  rewrite Qc_sgn_pos; [reflexivity |].
  rewrite <- Z2Qc_inj_0. apply (proj1 (Z2Qc_inj_lt 0 _)). lia.
Qed.

(** ** Asynchronous code *)

Lemma bind_normal {A B} (m : Async A) (k : A -> Async B) (a : A) :
  completion m = Normal a ->
  bind m k = (trace m ++ trace (k a), completion (k a)).
Proof.
  destruct m as [es c]. simpl. intros ->. unfold bind.
  destruct (k a). reflexivity.
Qed.

Lemma bind_emit {B} (e : Effect) (k : unit -> Async B) :
  bind (emit e) k = (e :: trace (k tt), completion (k tt)).
Proof. unfold bind, emit. destruct (k tt). reflexivity. Qed.

Lemma async_eta {A} (m : Async A) : m = (trace m, completion m).
Proof. now destruct m. Qed.

Lemma exec_app (s : Session) (es es' : list Effect) :
  exec s (es ++ es') = exec (exec s es) es'.
Proof. apply fold_left_app. Qed.

Lemma states_app (s : Session) (es es' : list Effect) :
  states s (es ++ es') = states s es ++ states (exec s es) es'.
Proof.
  revert s. induction es as [| e es IH]; intros s; simpl; [reflexivity |].
  now rewrite IH.
Qed.

(** ** The ping phase *)

Lemma pingIteration_run (w : World) (i : nat) (pings : list number) :
  pingIteration w i pings =
    match Spec.sample (pingProbe w i) with
    | Some d => ([], Normal (pings ++ [Fin d]))
    | None => ([ConsoleError], Normal pings)
    end.
Proof.
  unfold pingIteration, Spec.sample.
  destruct (probeFetch (pingProbe w i)); reflexivity.
Qed.

Lemma pingLoop_run (w : World) (n i : nat) (pings : list number) :
  pingLoop w i n pings =
    (probeErrors w i n,
     Normal (pings ++ map Fin (omap (fun j => Spec.sample (pingProbe w j)) (seq i n)))).
Proof.
  revert i pings. induction n as [| n IH]; intros i pings.
  - simpl. unfold ret, probeErrors. simpl. now rewrite app_nil_r.
  - cbn [pingLoop]. rewrite pingIteration_run.
    unfold probeErrors. cbn [seq flat_map omap].
    destruct (Spec.sample (pingProbe w i)) as [d |] eqn:E.
    + unfold bind at 1. rewrite IH. simpl. rewrite E. simpl.
      now rewrite <- app_assoc.
    + unfold bind at 1. rewrite IH. simpl. rewrite E. reflexivity.
Qed.

Lemma runPingTest_run (w : World) :
  runPingTest w = (probeErrors w 0 iterations ++ derived (Spec.samples w), Normal tt).
Proof.
  unfold runPingTest. rewrite pingLoop_run. unfold bind at 1.
  rewrite app_nil_l.
  change (omap _ (seq 0 iterations)) with (Spec.samples w).
  generalize (Spec.samples w). intros [| x l].
  - simpl. now rewrite app_nil_r.
  - rewrite length_map.
    replace (0 <? length (x :: l))%nat with true by reflexivity.
    rewrite Math_min_Fin, round_Fin.
    change (ofZ 0) with (Fin (Qc_of_Z 0)).
    rewrite fold_add_Fin, div_ofNat by (simpl; lia).
    rewrite fold_absdev_Fin, div_ofNat by (simpl; lia).
    rewrite round_Fin.
    rewrite !Z2Qc_inj_0, !Qcplus_0_l.
    unfold derived, Spec.meanAbsDev, Spec.mean. rewrite length_map.
    reflexivity.
Qed.

Lemma bind_ret {A B} (a : A) (k : A -> Async B) : bind (ret a) k = k a.
Proof. unfold bind, ret. now destruct (k a). Qed.

(** ** The simulations *)

Lemma intervalTicks_run (result : number) :
  intervalTicks result 0 = (tickEffects, Normal result).
Proof. reflexivity. Qed.

Lemma randomInRange_drawn (random : Qc) (low high : Z) :
  randomInRange random low high = ofZ (drawn random low high).
Proof.
  unfold randomInRange, drawn. cbn [Number.mul Math.floor ofZ].
  apply ofZ_add.
Qed.

Lemma Qfloor_Qc_iff (q : Qc) (k : Z) :
  Qfloor (this q) = k <-> (Qc_of_Z k <= q /\ q < Qc_of_Z (k + 1))%Qc.
Proof.
  pose proof (Qfloor_le (this q)) as Hlo.
  pose proof (Qlt_floor (this q)) as Hhi.
  set (f := Qfloor (this q)) in *.
  assert (Hlo' : (Qc_of_Z f <= q)%Qc) by exact Hlo.
  assert (Hhi' : (q < Qc_of_Z (f + 1))%Qc) by exact Hhi.
  split.
  - intros <-. now split.
  - intros [L U].
    assert (k < f + 1)%Z
      by (apply Z2Qc_inj_lt; eapply Qcle_lt_trans; [exact L | exact Hhi']).
    assert (f < k + 1)%Z
      by (apply Z2Qc_inj_lt; eapply Qcle_lt_trans; [exact Hlo' | exact U]).
    lia.
Qed.

(** Each integer of the range is drawn on an interval of draws of the
    same width, [1 / (high - low + 1)]. *)
Lemma drawn_iff (random : Qc) (low high k : Z) :
  drawn random low high = k <->
  (Qc_of_Z (k - low) <= random * Qc_of_Z (high - low + 1)
   /\ random * Qc_of_Z (high - low + 1) < Qc_of_Z (k - low + 1))%Qc.
Proof.
  unfold drawn. rewrite <- Qfloor_Qc_iff. lia.
Qed.

Lemma drawn_range (random : Qc) (low high : Z) :
  (0 <= random)%Qc -> (random < 1)%Qc -> low <= high ->
  low <= drawn random low high <= high.
Proof.
  intros H0 H1 Hlh.
  destruct (proj1 (drawn_iff random low high _) eq_refl) as [L U].
  set (n := Qc_of_Z (high - low + 1)) in *.
  assert (Hn : (0 < n)%Qc).
  { rewrite <- Z2Qc_inj_0. apply (proj1 (Z2Qc_inj_lt 0 _)). lia. }
  assert (Hge : (0 <= random * n)%Qc).
  { rewrite <- (Qcmult_0_l n). apply Qcmult_le_compat_r; [exact H0 |].
    now apply Qclt_le_weak. }
  assert (Hlt : (random * n < n)%Qc).
  { rewrite <- (Qcmult_1_l n) at 2. now apply Qcmult_lt_compat_r. }
  assert (0 < drawn random low high - low + 1).
  { apply Z2Qc_inj_lt. rewrite Z2Qc_inj_0. eapply Qcle_lt_trans; eauto. }
  assert (drawn random low high - low < high - low + 1).
  { apply Z2Qc_inj_lt. eapply Qcle_lt_trans; eauto. }
  lia.
Qed.

(** ** The download *)

Lemma readLoop_run (reader : BodyStream) (contentLength : number) (received : N) :
  readLoop reader contentLength (ofN received) =
    (chunkEffects contentLength received reader,
     if Spec.completes reader
     then Normal (ofN (received + Spec.receivedBytes reader))
     else Throw Rejected).
Proof.
  revert received. induction reader as [| | byteLength rest IH]; intros received.
  - simpl. now rewrite N.add_0_r.
  - reflexivity.
  - cbn [readLoop]. rewrite bind_emit, ofN_add, IH.
    unfold chunkEffects. cbn [Spec.runningTotals Spec.completes Spec.receivedBytes map trace completion fst snd].
    now rewrite N.add_assoc.
Qed.

Lemma runDownloadTest_initialFailure (w : World) :
  initialFailure w = true ->
  runDownloadTest w = (tickEffects, Normal (ofZ (drawn (downloadRandom w) 50 150))).
Proof.
  unfold initialFailure, runDownloadTest. intros H.
  rewrite intervalTicks_run, randomInRange_drawn.
  destruct (downloadFetch w) as [response | e]; [| reflexivity].
  destruct (ok response); [discriminate | reflexivity].
Qed.

Lemma runDownloadTest_noReader (w : World) (response : Response) :
  downloadFetch w = Normal response -> ok response = true ->
  body response = None ->
  runDownloadTest w = (streamFailure, Normal (ofZ 0)).
Proof. unfold runDownloadTest. intros -> -> ->. reflexivity. Qed.

Lemma runDownloadTest_stream (w : World) (response : Response) (reader : BodyStream) :
  downloadFetch w = Normal response -> ok response = true ->
  body response = Some reader ->
  runDownloadTest w =
    if Spec.completes reader
    then (chunkEffects (contentLengthOf response) 0 reader,
          Normal (Spec.throughputMbps (Spec.receivedBytes reader) (elapsedSeconds w)))
    else (chunkEffects (contentLengthOf response) 0 reader ++ streamFailure,
          Normal (ofZ 0)).
Proof.
  unfold runDownloadTest. intros -> -> ->.
  rewrite bind_ret.
  change (ofZ 0) with (ofN 0) at 1. rewrite readLoop_run.
  destruct (Spec.completes reader).
  - cbn [bind try_catch ret]. rewrite !app_nil_r, N.add_0_l.
    unfold Spec.throughputMbps, elapsedSeconds.
    replace (ofZ 1024 * ofZ 1024)%js with (ofZ 1048576) by (symmetry; number_compute).
    reflexivity.
  - reflexivity.
Qed.

Lemma runUploadTest_run (w : World) :
  runUploadTest w = (tickEffects, Normal (ofZ (drawn (uploadRandom w) 10 50))).
Proof.
  unfold runUploadTest. now rewrite intervalTicks_run, randomInRange_drawn.
Qed.

(** The download always returns a number. *)
Lemma runDownloadTest_returns (w : World) :
  exists dlSpeed, completion (runDownloadTest w) = Normal dlSpeed.
Proof.
  destruct (initialFailure w) eqn:F.
  - rewrite runDownloadTest_initialFailure by exact F. eauto.
  - unfold initialFailure in F.
    destruct (downloadFetch w) as [response | e] eqn:E; [| discriminate].
    apply negb_false_iff in F.
    destruct (body response) as [reader |] eqn:B.
    + rewrite (runDownloadTest_stream w response reader E F B).
      destruct (Spec.completes reader); eauto.
    + rewrite (runDownloadTest_noReader w response E F B). eauto.
Qed.

(** ** One run *)

Lemma trace_bind_emit {B} (e : Effect) (k : unit -> Async B) :
  trace (bind (emit e) k) = e :: trace (k tt).
Proof. now rewrite bind_emit. Qed.

Lemma completion_bind_emit {B} (e : Effect) (k : unit -> Async B) :
  completion (bind (emit e) k) = completion (k tt).
Proof. now rewrite bind_emit. Qed.

Lemma trace_bind_normal {A B} (m : Async A) (k : A -> Async B) (a : A) :
  completion m = Normal a -> trace (bind m k) = trace m ++ trace (k a).
Proof. intros H. now rewrite (bind_normal m k a H). Qed.

Lemma completion_bind_normal {A B} (m : Async A) (k : A -> Async B) (a : A) :
  completion m = Normal a -> completion (bind m k) = completion (k a).
Proof. intros H. now rewrite (bind_normal m k a H). Qed.

Lemma runTest_trace (w : World) (dlSpeed : number) :
  completion (runDownloadTest w) = Normal dlSpeed ->
  trace (runTest w) = runEffects w (trace (runDownloadTest w)) dlSpeed.
Proof.
  intros D. unfold runTest, runEffects, resets.
  rewrite !trace_bind_emit. cbn [app]. do 8 f_equal.
  rewrite (trace_bind_normal (runPingTest w) _ tt)
    by (now rewrite runPingTest_run).
  f_equal. rewrite !trace_bind_emit. cbn [app]. do 2 f_equal.
  rewrite (trace_bind_normal (runDownloadTest w) _ dlSpeed D).
  f_equal. rewrite !trace_bind_emit. cbn [app]. do 3 f_equal.
  rewrite (trace_bind_normal (runUploadTest w) _ (uploadSpeedOf w))
    by (now rewrite runUploadTest_run).
  rewrite runUploadTest_run. reflexivity.
Qed.

Lemma runTest_completion (w : World) : completion (runTest w) = Normal tt.
Proof.
  destruct (runDownloadTest_returns w) as [dlSpeed D].
  unfold runTest. rewrite !completion_bind_emit.
  rewrite (completion_bind_normal (runPingTest w) _ tt)
    by (now rewrite runPingTest_run).
  rewrite !completion_bind_emit.
  rewrite (completion_bind_normal (runDownloadTest w) _ dlSpeed D).
  rewrite !completion_bind_emit.
  rewrite (completion_bind_normal (runUploadTest w) _ (uploadSpeedOf w))
    by (now rewrite runUploadTest_run).
  reflexivity.
Qed.

(** ** Which state variable an effect writes *)

Lemma agree_off_refl (vars : Var -> bool) (s : Session) : agree_off vars s s.
Proof. now split. Qed.

Lemma agree_off_step (vars : Var -> bool) (s s' : Session) (e : Effect) :
  match written e with Some v => vars v = true | None => True end ->
  agree_off vars s s' -> agree_off vars s (apply_effect s' e).
Proof.
  intros W [].
  destruct e; simpl in W; split; simpl; intros H; auto; congruence.
Qed.

Lemma only_states (vars : Var -> bool) (es : list Effect) (s : Session) :
  only vars es ->
  Forall (agree_off vars s) (states s es) /\ agree_off vars s (exec s es).
Proof.
  intros H. assert (G : agree_off vars s s) by apply agree_off_refl.
  revert G. generalize s at 2 4 6 as s'.
  induction H as [| e es He Hes IH]; intros s' G; simpl.
  - split; [constructor | exact G].
  - pose proof (agree_off_step vars s s' e He G) as G'.
    destruct (IH _ G') as [IH1 IH2]. split; [constructor |]; assumption.
Qed.

Lemma only_app (vars : Var -> bool) (es es' : list Effect) :
  only vars es -> only vars es' -> only vars (es ++ es').
Proof. apply Forall_app_2. Qed.

Lemma runPingTest_only (w : World) : only pingVars (trace (runPingTest w)).
Proof.
  rewrite runPingTest_run. apply only_app.
  - unfold probeErrors. generalize (seq 0 iterations).
    induction l as [| j l IH]; [constructor |].
    cbn [flat_map]. apply only_app; [| exact IH].
    destruct (Spec.sample (pingProbe w j)); repeat constructor.
  - destruct (Spec.samples w); repeat constructor.
Qed.

Lemma tickEffects_only : only progressVars tickEffects.
Proof. repeat constructor. Qed.

Lemma chunkEffects_only (contentLength : number) (received : N) (reader : BodyStream) :
  only downloadVars (chunkEffects contentLength received reader).
Proof.
  unfold chunkEffects. generalize (Spec.runningTotals received reader).
  induction l; constructor; [reflexivity | assumption].
Qed.

Lemma runDownloadTest_only (w : World) : only downloadVars (trace (runDownloadTest w)).
Proof.
  destruct (initialFailure w) eqn:F.
  - rewrite runDownloadTest_initialFailure by exact F. repeat constructor.
  - unfold initialFailure in F.
    destruct (downloadFetch w) as [response | e] eqn:E; [| discriminate].
    apply negb_false_iff in F.
    destruct (body response) as [reader |] eqn:B.
    + rewrite (runDownloadTest_stream w response reader E F B).
      destruct (Spec.completes reader); cbn [trace fst].
      * apply chunkEffects_only.
      * apply only_app; [apply chunkEffects_only | repeat constructor].
    + rewrite (runDownloadTest_noReader w response E F B). repeat constructor.
Qed.

(** ** The sessions of a run *)

Lemma atPoint_agree (vars : Var -> bool) (s s' : Session) ph testing dl ul p j :
  vars VPhase = false -> vars VIsTesting = false ->
  vars VDownloadSpeed = false -> vars VUploadSpeed = false ->
  vars VPing = false -> vars VJitter = false ->
  atPoint s ph testing dl ul p j -> agree_off vars s s' ->
  atPoint s' ph testing dl ul p j.
Proof.
  intros Hp Ht Hd Hu Hpi Hj (E1 & E2 & E3 & E4 & E5 & E6)
    [A1 A2 A3 A4 A5 A6 A7 A8 A9].
  unfold atPoint. rewrite (A8 Hp), (A6 Ht), (A1 Hd), (A2 Hu), (A3 Hpi), (A4 Hj).
  now repeat split.
Qed.

Ltac fields :=
  cbn [fold_left apply_effect phase isTesting downloadSpeed uploadSpeed
       ping jitter].

Ltac facts :=
  repeat (match goal with |- _ /\ _ => split end);
  try assumption;
  try (match goal with |- is_Some _ => eexists; first [eassumption | reflexivity] end).

Lemma exec_probeErrors (w : World) (i n : nat) (s : Session) :
  exec s (probeErrors w i n) = s.
Proof.
  unfold probeErrors. revert s. generalize (seq i n).
  induction l as [| k l IH]; intros s; [reflexivity |].
  cbn [flat_map]. rewrite exec_app, IH.
  now destruct (Spec.sample (pingProbe w k)).
Qed.

Lemma exec_runPingTest (w : World) (s : Session) ph testing dl ul :
  atPoint s ph testing dl ul None None ->
  atPoint (exec s (trace (runPingTest w))) ph testing dl ul (pingOf w) (jitterOf w).
Proof.
  intros (? & ? & ? & ? & ? & ?).
  rewrite runPingTest_run. cbn [trace fst]. rewrite exec_app, exec_probeErrors.
  unfold pingOf, jitterOf, atPoint, derived, exec.
  destruct (Spec.samples w);
    cbn [fold_left apply_effect phase isTesting downloadSpeed uploadSpeed
         ping jitter];
    facts; reflexivity.
Qed.

Lemma runEffects_resets (w : World) (download : list Effect) (dlSpeed : number) :
  runEffects w download dlSpeed = resets ++ phaseEffects w download dlSpeed.
Proof. reflexivity. Qed.

Lemma atPoint_resets (s0 : Session) :
  atPoint (exec s0 resets) (phase s0) true None None None None.
Proof. repeat split. Qed.

Lemma Forall_states_app (P : Session -> Prop) (s : Session) (es es' : list Effect) :
  Forall P (states s es) -> Forall P (states (exec s es) es') ->
  Forall P (states s (es ++ es')).
Proof. intros. rewrite states_app. now apply Forall_app_2. Qed.

Lemma phaseEffects_states (w : World) (s : Session) (download : list Effect)
    (dlSpeed : number) (ph : Phase) :
  only downloadVars download ->
  atPoint s ph true None None None None ->
  Forall (inRun w) (states s (phaseEffects w download dlSpeed))
  /\ atPoint (exec s (phaseEffects w download dlSpeed)) Complete false
       (Some dlSpeed) (Some (uploadSpeedOf w)) (pingOf w) (jitterOf w).
Proof.
  intros Hd H1. unfold phaseEffects.
  rewrite !states_app. do 6 rewrite exec_app.
  (* phase ping *)
  assert (H2 : atPoint (exec s [SetPhase Ping]) Ping true None None None None).
  { destruct H1 as (? & ? & ? & ? & ? & ?).
    unfold atPoint, exec. fields. facts; reflexivity. }
  generalize dependent (exec s [SetPhase Ping]). intros s2 H2.
  destruct (only_states pingVars _ s2 (runPingTest_only w)) as [A3 _].
  pose proof (exec_runPingTest w s2 _ _ _ _ H2) as H3.
  generalize dependent (exec s2 (trace (runPingTest w))). intros s3 H3.
  (* phase download *)
  assert (H4 : atPoint (exec s3 [SetPhase Download; SetProgress (ofZ 0)])
                 Download true None None (pingOf w) (jitterOf w)).
  { destruct H3 as (? & ? & ? & ? & ? & ?).
    unfold atPoint, exec. fields. facts; reflexivity. }
  generalize dependent (exec s3 [SetPhase Download; SetProgress (ofZ 0)]).
  intros s4 H4.
  destruct (only_states downloadVars download s4 Hd) as [A5 E5].
  pose proof (atPoint_agree downloadVars s4 _ _ _ _ _ _ _
                eq_refl eq_refl eq_refl eq_refl eq_refl eq_refl H4 E5) as H5.
  clear E5. generalize dependent (exec s4 download). intros s5 H5.
  (* phase upload *)
  assert (H6 : atPoint (exec s5 [SetDownloadSpeed (Some dlSpeed); SetPhase Upload;
                             SetProgress (ofZ 0)])
                 Upload true (Some dlSpeed) None (pingOf w) (jitterOf w)).
  { destruct H5 as (? & ? & ? & ? & ? & ?).
    unfold atPoint, exec. fields. facts; reflexivity. }
  generalize dependent (exec s5 [SetDownloadSpeed (Some dlSpeed); SetPhase Upload;
                                 SetProgress (ofZ 0)]).
  intros s6 H6.
  destruct (only_states progressVars tickEffects s6 tickEffects_only) as [A7 E7].
  pose proof (atPoint_agree progressVars s6 _ _ _ _ _ _ _
                eq_refl eq_refl eq_refl eq_refl eq_refl eq_refl H6 E7) as H7.
  clear E7. generalize dependent (exec s6 tickEffects). intros s7 H7.
  split.
  - repeat apply Forall_app_2.
    + destruct H1 as (? & ? & ? & ? & ? & ?).
      cbn [states]. repeat (match goal with |- Forall _ _ => constructor end).
      unfold inRun. fields. facts.
    + eapply Forall_impl; [exact A3 |]. intros s' [].
      destruct H2 as (P & T & D & U & _ & _). unfold inRun.
      rewrite agree_phase0, P by reflexivity.
      rewrite agree_isTesting0, agree_downloadSpeed0, agree_uploadSpeed0
        by reflexivity.
      facts.
    + destruct H3 as (? & ? & ? & ? & ? & ?).
      cbn [states]. repeat (match goal with |- Forall _ _ => constructor end);
        unfold inRun; fields; facts.
    + eapply Forall_impl; [exact A5 |]. intros s' G.
      pose proof (atPoint_agree downloadVars s4 s' _ _ _ _ _ _
                    eq_refl eq_refl eq_refl eq_refl eq_refl eq_refl H4 G)
        as (P & ? & ? & ? & ? & ?).
      unfold inRun. rewrite P. facts.
    + destruct H5 as (P & ? & ? & ? & ? & ?).
      cbn [states]. repeat (match goal with |- Forall _ _ => constructor end);
        unfold inRun; fields; rewrite ?P; facts.
    + eapply Forall_impl; [exact A7 |]. intros s' G.
      pose proof (atPoint_agree progressVars s6 s' _ _ _ _ _ _
                    eq_refl eq_refl eq_refl eq_refl eq_refl eq_refl H6 G)
        as (P & ? & D & ? & ? & ?).
      unfold inRun. rewrite P, D. facts.
    + destruct H7 as (P & ? & D & ? & ? & ?).
      cbn [states]. repeat (match goal with |- Forall _ _ => constructor end);
        unfold inRun; fields; rewrite ?P, ?D; facts.
  - destruct H7 as (? & ? & ? & ? & ? & ?).
    unfold atPoint, exec. fields. facts; reflexivity.
Qed.

Lemma runTest_final (w : World) (s0 : Session) (dlSpeed : number) :
  completion (runDownloadTest w) = Normal dlSpeed ->
  atPoint (exec s0 (trace (runTest w))) Complete false
    (Some dlSpeed) (Some (uploadSpeedOf w)) (pingOf w) (jitterOf w).
Proof.
  intros D. rewrite (runTest_trace w dlSpeed D), runEffects_resets, exec_app.
  apply (phaseEffects_states w (exec s0 resets) _ dlSpeed (phase s0)
           (runDownloadTest_only w) (atPoint_resets s0)).
Qed.

(** ** The network information *)

Lemma fetchNetworkInfo_cases (w : World) :
  trace (fetchNetworkInfo w) = [] \/ trace (fetchNetworkInfo w) = [ConsoleError]
  \/ exists info, trace (fetchNetworkInfo w) = [SetIpInfo (Some info)].
Proof.
  unfold fetchNetworkInfo.
  destruct (networkInfoFetch w) as [[data | e] | e]; [| now right; left ..].
  cbn [await bind try_catch app].
  destruct (getProp data "success") as [success | e]; [| now right; left].
  cbn [await bind try_catch app]. destruct (truthy success); [| now left].
  destruct (getProp data "ip") as [ip_ | e]; [| now right; left].
  cbn [await bind try_catch app].
  destruct (getProp data "connection") as [connection | e]; [| now right; left].
  cbn [await bind try_catch app].
  destruct (getProp connection "isp") as [connection_isp | e]; [| now right; left].
  cbn [await bind try_catch app].
  destruct (truthy connection_isp); [right; right; eexists; reflexivity |].
  destruct (getProp data "isp") as [data_isp | e]; [| now right; left].
  right; right; eexists; reflexivity.
Qed.

Lemma fetchNetworkInfo_only (w : World) : only ipVars (trace (fetchNetworkInfo w)).
Proof.
  destruct (fetchNetworkInfo_cases w) as [-> | [-> | [info ->]]];
    repeat constructor.
Qed.

Lemma agree_off_apply (vars : Var -> bool) (s s' : Session) (e : Effect) :
  agree_off vars s s' -> agree_off vars (apply_effect s e) (apply_effect s' e).
Proof. intros []. destruct e; split; simpl; auto. Qed.

Lemma agree_off_exec (vars : Var -> bool) (es : list Effect) (s s' : Session) :
  agree_off vars s s' -> agree_off vars (exec s es) (exec s' es).
Proof.
  revert s s'. induction es as [| e es IH]; intros s s' H; [exact H |].
  apply IH, agree_off_apply, H.
Qed.

Lemma agree_off_trans (vars : Var -> bool) (s1 s2 s3 : Session) :
  agree_off vars s1 s2 -> agree_off vars s2 s3 -> agree_off vars s1 s3.
Proof.
  intros [A1 A2 A3 A4 A5 A6 A7 A8 A9] [B1 B2 B3 B4 B5 B6 B7 B8 B9].
  split; intros H.
  - now rewrite (B1 H), (A1 H).
  - now rewrite (B2 H), (A2 H).
  - now rewrite (B3 H), (A3 H).
  - now rewrite (B4 H), (A4 H).
  - now rewrite (B5 H), (A5 H).
  - now rewrite (B6 H), (A6 H).
  - now rewrite (B7 H), (A7 H).
  - now rewrite (B8 H), (A8 H).
  - now rewrite (B9 H), (A9 H).
Qed.

Lemma interleave_agree (vars : Var -> bool) (schedule : list bool)
    (a b : list Effect) (s s' : Session) :
  only vars a -> agree_off vars s s' ->
  agree_off vars (exec s b) (exec s' (interleave schedule a b)).
Proof.
  revert a b s s'.
  assert (Hend : forall a b s s', only vars a -> agree_off vars s s' ->
                   agree_off vars (exec s b) (exec s' (a ++ b))).
  { intros a b s s' Ha H. rewrite exec_app. apply agree_off_exec.
    eapply agree_off_trans; [exact H |].
    destruct (only_states vars a s' Ha) as [_ G]. exact G. }
  induction schedule as [| c sch IH]; intros a b s s' Ha H.
  - now apply Hend.
  - destruct c, a as [| e a'], b as [| e' b']; cbn [interleave].
    + exact H.
    + now apply agree_off_exec.
    + inversion Ha; subst. apply (IH a' [] s); [assumption |].
      now apply agree_off_step.
    + inversion Ha; subst. apply (IH a' (e' :: b') s); [assumption |].
      now apply agree_off_step.
    + exact H.
    + apply (IH [] b' (apply_effect s e')); [assumption |].
      now apply agree_off_apply.
    + apply (Hend (e :: a') [] s s' Ha) in H. now rewrite app_nil_r in H.
    + apply (IH (e :: a') b' (apply_effect s e')); [assumption |].
      now apply agree_off_apply.
Qed.

(** C6: every run terminates with the phase [Complete], whatever the
    probes do: all latency probes failing, the download failing at once
    or in mid-stream, the network information lookup failing, its effects
    arriving at any point of the run. No failure escapes [runTest]. *)
Theorem C6_run_always_completes (w : World) (s0 : Session) (schedule : list bool) :
  completion (runTest w) = Normal tt
  /\ phase (exec s0 (trace (runTest w))) = Complete
  /\ phase (exec s0 (interleave schedule (trace (fetchNetworkInfo w))
                       (trace (runTest w)))) = Complete.
Proof.
  destruct (runDownloadTest_returns w) as [dlSpeed D].
  pose proof (runTest_final w s0 dlSpeed D) as (P & _).
  split; [apply runTest_completion |]. split; [exact P |].
  destruct (interleave_agree ipVars schedule _ (trace (runTest w)) s0 s0
              (fetchNetworkInfo_only w) (agree_off_refl _ _)) as [].
  now rewrite agree_phase0.
Qed.

(** ** The phases of a run *)

Lemma Phase_eqb_refl (p : Phase) : Spec.Phase_eqb p p = true.
Proof. now destruct p. Qed.

Lemma Phase_eqb_eq (p q : Phase) : Spec.Phase_eqb p q = true -> p = q.
Proof. destruct p, q; (reflexivity || discriminate). Qed.

Lemma phaseChanges_states (es : list Effect) (s : Session) (current : Phase) :
  phase s = current ->
  Spec.phaseChanges current (states s es) = compress current (phaseWrites es).
Proof.
  revert s current. induction es as [| e es IH]; intros s current Hc;
    [reflexivity |].
  cbn [states Spec.phaseChanges].
  assert (Hp : phase (apply_effect s e)
               = match e with SetPhase v => v | _ => current end)
    by (destruct e; (exact Hc || reflexivity)).
  rewrite Hp.
  destruct e; rewrite ?Phase_eqb_refl;
    try (apply (IH _ _ Hp)).
  change (phaseWrites (SetPhase v :: es)) with (v :: phaseWrites es).
  cbn [compress]. destruct (Spec.Phase_eqb v current) eqn:E.
  - apply IH. rewrite Hp. now apply Phase_eqb_eq.
  - f_equal. apply (IH _ _ Hp).
Qed.

Lemma phaseWrites_app (es es' : list Effect) :
  phaseWrites (es ++ es') = phaseWrites es ++ phaseWrites es'.
Proof. apply omap_app. Qed.

Lemma phaseWrites_only (vars : Var -> bool) (es : list Effect) :
  vars VPhase = false -> only vars es -> phaseWrites es = [].
Proof.
  intros V H. induction H as [| e es He Hes IH]; [reflexivity |].
  destruct e; cbn in He |- *; solve [exact IH | congruence].
Qed.

Lemma runEffects_phaseWrites (w : World) (download : list Effect) (dlSpeed : number) :
  only downloadVars download ->
  phaseWrites (runEffects w download dlSpeed) = [Ping; Download; Upload; Complete].
Proof.
  intros Hd. unfold runEffects. rewrite !phaseWrites_app.
  rewrite (phaseWrites_only pingVars _ eq_refl (runPingTest_only w)).
  rewrite (phaseWrites_only downloadVars _ eq_refl Hd).
  rewrite (phaseWrites_only progressVars _ eq_refl tickEffects_only).
  reflexivity.
Qed.

(** The run spelled out: the resets, then each phase, set before its
    operation starts and after the operation before it has returned. *)
Lemma runTest_sequence (w : World) :
  exists dlSpeed ulSpeed,
    completion (runDownloadTest w) = Normal dlSpeed
    /\ completion (runUploadTest w) = Normal ulSpeed
    /\ trace (runTest w) =
         resets
         ++ [SetPhase Ping] ++ trace (runPingTest w)
         ++ [SetPhase Download; SetProgress (ofZ 0)] ++ trace (runDownloadTest w)
         ++ [SetDownloadSpeed (Some dlSpeed)]
         ++ [SetPhase Upload; SetProgress (ofZ 0)] ++ trace (runUploadTest w)
         ++ [SetUploadSpeed (Some ulSpeed)]
         ++ [SetPhase Complete; SetIsTesting false].
Proof.
  destruct (runDownloadTest_returns w) as [dlSpeed D].
  exists dlSpeed, (uploadSpeedOf w). split; [exact D |].
  split; [now rewrite runUploadTest_run |].
  rewrite (runTest_trace w dlSpeed D), runUploadTest_run. reflexivity.
Qed.

(** C2, as amended: every run sets the phase four times, to [Ping],
    [Download], [Upload] and [Complete] in that order, each after the
    operation of the phase before has returned; so a run that starts in
    phase [Idle] goes through idle, ping, download, upload, complete
    without skipping or repeating a phase, and a run that starts in phase
    [Complete] (a second run: [runTest] never sets [Idle]) goes through
    complete, ping, download, upload, complete. *)
Theorem C2_phase_sequence (w : World) (s0 : Session) :
  phaseWrites (trace (runTest w)) = [Ping; Download; Upload; Complete]
  /\ (phase s0 = Idle ->
      Spec.phasesVisited s0 (trace (runTest w))
      = [Idle; Ping; Download; Upload; Complete])
  /\ (phase s0 = Complete ->
      Spec.phasesVisited s0 (trace (runTest w))
      = [Complete; Ping; Download; Upload; Complete])
  /\ exists dlSpeed ulSpeed,
       completion (runDownloadTest w) = Normal dlSpeed
       /\ completion (runUploadTest w) = Normal ulSpeed
       /\ trace (runTest w) =
            resets
            ++ [SetPhase Ping] ++ trace (runPingTest w)
            ++ [SetPhase Download; SetProgress (ofZ 0)]
            ++ trace (runDownloadTest w)
            ++ [SetDownloadSpeed (Some dlSpeed)]
            ++ [SetPhase Upload; SetProgress (ofZ 0)]
            ++ trace (runUploadTest w)
            ++ [SetUploadSpeed (Some ulSpeed)]
            ++ [SetPhase Complete; SetIsTesting false].
Proof.
  destruct (runDownloadTest_returns w) as [dlSpeed D].
  assert (W : phaseWrites (trace (runTest w)) = [Ping; Download; Upload; Complete]).
  { rewrite (runTest_trace w dlSpeed D).
    apply runEffects_phaseWrites, runDownloadTest_only. }
  split; [exact W |].
  unfold Spec.phasesVisited.
  rewrite (phaseChanges_states _ s0 (phase s0) eq_refl), W.
  split; [intros -> ; reflexivity |].
  split; [intros -> ; reflexivity |].
  apply runTest_sequence.
Qed.

Lemma C2_phase_sequence_witness :
  Spec.phasesVisited initialSession (trace (runTest world1))
  = [Idle; Ping; Download; Upload; Complete].
Proof.
  exact (proj1 (proj2 (C2_phase_sequence world1 initialSession)) eq_refl).
Defined.

(** C2 as stated fails on a second run: it starts in phase [Complete],
    never visits [Idle], and ends in the phase it started in. *)
Lemma C2_second_run_counterexample :
  Spec.phasesVisited (exec initialSession (trace (runTest world1)))
    (trace (runTest world1))
  = [Complete; Ping; Download; Upload; Complete]
  /\ Spec.phasesVisited (exec initialSession (trace (runTest world1)))
       (trace (runTest world1))
     <> [Idle; Ping; Download; Upload; Complete].
Proof.
  assert (E : Spec.phasesVisited (exec initialSession (trace (runTest world1)))
                (trace (runTest world1))
              = [Complete; Ping; Download; Upload; Complete])
    by (vm_compute; reflexivity).
  split; [exact E |]. rewrite E. discriminate.
Qed.

Lemma run_states (w : World) (s0 : Session) :
  exists rest,
    trace (runTest w) = resets ++ rest
    /\ Forall (inRun w) (states (exec s0 resets) rest).
Proof.
  destruct (runDownloadTest_returns w) as [dlSpeed D].
  exists (phaseEffects w (trace (runDownloadTest w)) dlSpeed).
  split; [now rewrite (runTest_trace w dlSpeed D) |].
  apply (phaseEffects_states w (exec s0 resets) _ dlSpeed (phase s0)
           (runDownloadTest_only w) (atPoint_resets s0)).
Qed.

(** C10: [isTesting] is true exactly while a run is in progress.
    [runTest] sets it first, before it sets any phase, and clears it
    last, right after it has set the phase [Complete]; every session in
    between has it true, and so has every session whose phase is [Ping],
    [Download] or [Upload]. *)
Theorem C10_isTesting_while_running (w : World) (s0 : Session) :
  (exists mid,
     trace (runTest w)
     = SetIsTesting true :: mid ++ [SetPhase Complete; SetIsTesting false]
     /\ Forall (fun s => isTesting s = true)
          (states s0 (SetIsTesting true :: mid ++ [SetPhase Complete])))
  /\ isTesting (exec s0 (trace (runTest w))) = false
  /\ (forall s, s ∈ states s0 (trace (runTest w)) ->
      phase s = Ping \/ phase s = Download \/ phase s = Upload ->
      isTesting s = true).
Proof.
  destruct (runDownloadTest_returns w) as [dlSpeed D].
  pose proof (runTest_final w s0 dlSpeed D) as (_ & T & _).
  split; [| split; [exact T |]].
  - rewrite (runTest_trace w dlSpeed D). unfold runEffects, resets.
    set (mid := [SetError None; SetDownloadSpeed None; SetUploadSpeed None;
                 SetPing None; SetJitter None; SetProgress (ofZ 0)]
                ++ [SetPhase Ping] ++ trace (runPingTest w)
                ++ [SetPhase Download; SetProgress (ofZ 0)]
                ++ trace (runDownloadTest w)
                ++ [SetDownloadSpeed (Some dlSpeed); SetPhase Upload;
                    SetProgress (ofZ 0)]
                ++ tickEffects ++ [SetUploadSpeed (Some (uploadSpeedOf w))]).
    exists mid. split.
    { unfold mid. rewrite <- !app_assoc. reflexivity. }
    assert (O : only (fun v => match v with VIsTesting => false | _ => true end)
                  (mid ++ [SetPhase Complete])).
    { unfold mid. repeat apply only_app; try (repeat constructor; fail).
      - eapply Forall_impl; [apply runPingTest_only |].
        intros e H; cbn beta in *; destruct (written e) as [[] |];
          (discriminate H || reflexivity || exact I).
      - eapply Forall_impl; [apply runDownloadTest_only |].
        intros e H; cbn beta in *; destruct (written e) as [[] |];
          (discriminate H || reflexivity || exact I).
    }
    cbn [states]. constructor; [reflexivity |].
    destruct (only_states _ _ (apply_effect s0 (SetIsTesting true)) O) as [A _].
    eapply Forall_impl; [exact A |]. intros s []. now rewrite agree_isTesting0.
  - destruct (run_states w s0) as (rest & -> & R).
    intros s Hs Hp. rewrite states_app in Hs. apply elem_of_app in Hs as [Hs | Hs].
    + cbn [states resets] in Hs.
      repeat (apply elem_of_cons in Hs as [-> | Hs]; [reflexivity |]).
      now apply elem_of_nil in Hs.
    + rewrite Forall_forall in R. specialize (R s Hs). unfold inRun in R.
      destruct Hp as [Hp | [Hp | Hp]]; rewrite Hp in R; apply R.
Qed.

Lemma C10_isTesting_while_running_witness :
  isTesting (exec initialSession (resets ++ [SetPhase Ping])) = true.
Proof.
  apply (proj2 (proj2 (C10_isTesting_while_running world1 initialSession))).
  - vm_compute. do 7 right. left.
  - left. reflexivity.
Defined.

(** C8, as amended: in a run, after its resets, the download and the
    upload result are null until their phase begins and set once it is
    over; the ping and the jitter are null before the ping phase and, once
    it is over, set exactly when at least one latency sample was
    collected: with no sample they stay null through the rest of the
    run. *)
Theorem C8_results_by_phase (w : World) (s0 : Session) :
  exists rest,
    trace (runTest w) = resets ++ rest
    /\ (downloadSpeed (exec s0 resets) = None
        /\ uploadSpeed (exec s0 resets) = None
        /\ ping (exec s0 resets) = None
        /\ jitter (exec s0 resets) = None)
    /\ forall s, s ∈ states (exec s0 resets) rest ->
         (phase s = Ping -> downloadSpeed s = None /\ uploadSpeed s = None)
         /\ (phase s = Download -> uploadSpeed s = None)
         /\ (phase s = Upload \/ phase s = Complete -> is_Some (downloadSpeed s))
         /\ (phase s = Complete -> is_Some (uploadSpeed s))
         /\ (phase s <> Ping ->
             (is_Some (ping s) <-> Spec.samples w <> [])
             /\ (is_Some (jitter s) <-> Spec.samples w <> [])).
Proof.
  destruct (run_states w s0) as (rest & E & R).
  exists rest. split; [exact E |]. split; [now repeat split |].
  intros s Hs. rewrite Forall_forall in R. specialize (R s Hs).
  unfold inRun in R.
  assert (S : forall p j, ping s = pingOf w /\ jitter s = jitterOf w ->
              p = ping s -> j = jitter s ->
              (is_Some p <-> Spec.samples w <> [])
              /\ (is_Some j <-> Spec.samples w <> [])).
  { intros p j [Hp Hj] -> ->. rewrite Hp, Hj. unfold pingOf, jitterOf.
    destruct (Spec.samples w).
    - split; (split; [intros [? [=]] | intros []; reflexivity]).
    - split; (split; [discriminate | eauto]). }
  destruct (phase s); try contradiction;
    repeat (match goal with |- _ /\ _ => split end);
    try (intros H; discriminate H);
    try (intros [H | H]; discriminate H);
    try (intros H; exfalso; apply H; reflexivity);
    intros _;
    repeat (match goal with H : _ /\ _ |- _ => destruct H end);
    first [assumption | split; assumption | apply S; auto].
Qed.

Lemma states_last (es : list Effect) (s : Session) :
  es <> [] -> last (states s es) = Some (exec s es).
Proof.
  revert s. induction es as [| e es IH]; intros s H; [contradiction |].
  destruct es as [| e' es']; [reflexivity |].
  cbn [states]. change (exec s (e :: e' :: es')) with
    (exec (apply_effect s e) (e' :: es')).
  rewrite <- IH by discriminate. reflexivity.
Qed.

Lemma C8_results_by_phase_witness :
  is_Some (downloadSpeed (exec initialSession (trace (runTest world1))))
  /\ is_Some (uploadSpeed (exec initialSession (trace (runTest world1)))).
Proof.
  destruct (C8_results_by_phase world1 initialSession) as (rest & E & _ & H).
  assert (N : rest <> []).
  { intros ->. apply (f_equal length) in E. vm_compute in E. discriminate E. }
  assert (M : exec initialSession (trace (runTest world1))
              ∈ states (exec initialSession resets) rest).
  { rewrite E, exec_app. apply last_Some_elem_of, states_last, N. }
  assert (P : phase (exec initialSession (trace (runTest world1))) = Complete)
    by (vm_compute; reflexivity).
  destruct (H _ M) as (_ & _ & D & U & _).
  split; [apply D; right; exact P | apply U; exact P].
Defined.

(** C8 as stated fails when no latency sample is collected: the ping
    phase has run, the run is complete, and ping and jitter are null. *)
Lemma C8_no_sample_counterexample :
  Spec.samples world0 = []
  /\ phase (exec initialSession (trace (runTest world0))) = Complete
  /\ ping (exec initialSession (trace (runTest world0))) = None
  /\ jitter (exec initialSession (trace (runTest world0))) = None.
Proof. vm_compute. repeat split. Qed.

(** ** The latency figures *)



(** ** The throughput figures *)

Lemma only_weaken (vars vars' : Var -> bool) (es : list Effect) :
  (forall v, vars v = true -> vars' v = true) -> only vars es -> only vars' es.
Proof.
  intros H O. eapply Forall_impl; [exact O |]. intros e He. cbn beta in *.
  destruct (written e); [apply H, He | exact I].
Qed.

Lemma error_final (w : World) (s0 : Session) :
  error (exec s0 (trace (runTest w)))
  = error (exec initialSession (trace (runDownloadTest w))).
Proof.
  destruct (runDownloadTest_returns w) as [dlSpeed D].
  rewrite (runTest_trace w dlSpeed D). unfold runEffects.
  set (post := [SetDownloadSpeed (Some dlSpeed); SetPhase Upload; SetProgress (ofZ 0)]
               ++ tickEffects
               ++ [SetUploadSpeed (Some (uploadSpeedOf w)); SetPhase Complete;
                   SetIsTesting false]).
  assert (Opost : only noErrorVars post).
  { unfold post. repeat apply only_app; try (repeat constructor; fail). }
  assert (Oping : only noErrorVars
                    ([SetPhase Ping] ++ trace (runPingTest w)
                     ++ [SetPhase Download; SetProgress (ofZ 0)])).
  { repeat apply only_app; try (repeat constructor; fail).
    apply (only_weaken pingVars); [now intros [] | apply runPingTest_only]. }
  rewrite exec_app.
  rewrite (app_assoc [SetPhase Ping]), (app_assoc _ [SetPhase Download; _]).
  rewrite <- (app_assoc [SetPhase Ping]).
  rewrite exec_app, exec_app.
  destruct (only_states _ _ (exec s0 resets) Oping) as [_ [_ _ _ _ _ _ _ _ A]].
  match goal with
  | |- error (exec (exec ?s _) _) = _ =>
      destruct (only_states _ _ (exec s (trace (runDownloadTest w))) Opost)
        as [_ [_ _ _ _ _ _ _ _ B]]
  end.
  rewrite (B eq_refl).
  assert (G : agree_off noErrorVars initialSession
                (exec (exec s0 resets)
                   ([SetPhase Ping] ++ trace (runPingTest w)
                    ++ [SetPhase Download; SetProgress (ofZ 0)]))).
  { split; try discriminate. intros _. now rewrite (A eq_refl). }
  destruct (agree_off_exec noErrorVars (trace (runDownloadTest w)) _ _ G)
    as [_ _ _ _ _ _ _ _ C].
  now rewrite (C eq_refl).
Qed.

(** C3: when reading the body of a successful response fails in
    mid-stream, the download shows the progress of the chunks it has read,
    sets the error message and returns 0, with no simulation; the run goes
    on through the upload to [Complete], with the upload result in
    [10, 50]. *)
Theorem C3_midstream_failure (w : World) (s0 : Session)
    (response : Response) (reader : BodyStream) :
  downloadFetch w = Normal response -> ok response = true ->
  body response = Some reader -> Spec.completes reader = false ->
  (0 <= uploadRandom w)%Qc -> (uploadRandom w < 1)%Qc ->
  runDownloadTest w
  = (map (fun n => SetProgress (Spec.progressAt (contentLengthOf response) n))
       (Spec.runningTotals 0 reader)
     ++ [ConsoleError; SetError (Some "Speed test failed. Please try again.")],
     Normal (ofZ 0))
  /\ phase (exec s0 (trace (runTest w))) = Complete
  /\ error (exec s0 (trace (runTest w)))
     = Some "Speed test failed. Please try again."
  /\ downloadSpeed (exec s0 (trace (runTest w))) = Some (ofZ 0)
  /\ exists z, uploadSpeed (exec s0 (trace (runTest w))) = Some (ofZ z)
               /\ 10 <= z <= 50.
Proof.
  intros F O B C U0 U1.
  pose proof (runDownloadTest_stream w response reader F O B) as R.
  rewrite C in R. split; [exact R |].
  assert (D : completion (runDownloadTest w) = Normal (ofZ 0)) by now rewrite R.
  pose proof (runTest_final w s0 (ofZ 0) D) as (P & _ & DL & UL & _).
  split; [exact P |]. split; [| split; [exact DL |]].
  - rewrite error_final, R. cbn [trace fst]. rewrite exec_app. reflexivity.
  - exists (drawn (uploadRandom w) 10 50). split; [exact UL |].
    apply drawn_range; [assumption .. | lia].
Qed.

Lemma C3_midstream_failure_witness :
  error (exec initialSession
           (trace (runTest (withDownload world1 (Normal failingResponse)))))
  = Some "Speed test failed. Please try again."
  /\ downloadSpeed (exec initialSession
                      (trace (runTest (withDownload world1 (Normal failingResponse)))))
     = Some (ofZ 0).
Proof.
  destruct (C3_midstream_failure (withDownload world1 (Normal failingResponse))
              initialSession failingResponse
              (StreamChunk 1000 (StreamChunk 500 StreamError))
              eq_refl eq_refl eq_refl eq_refl)
    as (_ & _ & E & D & _).
  - vm_compute. discriminate.
  - vm_compute. reflexivity.
  - split; [exact E | exact D].
Defined.








(** ** The network information lookup *)

(** When the response says [success] and its [connection] is neither
    undefined nor null, the lookup stores the address and the provider,
    the provider being [connection.isp], or else the top-level [isp], or
    else ["Unknown ISP"]. *)
Lemma fetchNetworkInfo_stores (w : World)
    (data success ip_ connection connection_isp data_isp : JSValue) :
  networkInfoFetch w = Normal (Normal data) ->
  getProp data "success" = Normal success -> truthy success = true ->
  getProp data "ip" = Normal ip_ ->
  getProp data "connection" = Normal connection ->
  getProp connection "isp" = Normal connection_isp ->
  getProp data "isp" = Normal data_isp ->
  fetchNetworkInfo w
  = ([SetIpInfo (Some {|
        ip := ip_;
        isp := or_else connection_isp (or_else data_isp (JStr "Unknown ISP")) |})],
     Normal tt).
Proof.
  intros F S T I C CI DI. unfold fetchNetworkInfo, or_else.
  rewrite F. cbn [await bind try_catch app]. rewrite S.
  cbn [await bind try_catch app]. rewrite T, I.
  cbn [await bind try_catch app]. rewrite C.
  cbn [await bind try_catch app]. rewrite CI.
  cbn [await bind try_catch app].
  destruct (truthy connection_isp); [reflexivity |].
  rewrite DI. reflexivity.
Qed.

(** When the request or the parsing of its body fails, or the response
    does not say [success], the lookup stores nothing and sets no error. *)
Lemma fetchNetworkInfo_failure (w : World) :
  (forall data, networkInfoFetch w = Normal (Normal data) ->
     exists success, getProp data "success" = Normal success
                     /\ truthy success = false) \/
  (forall data, networkInfoFetch w <> Normal (Normal data)) ->
  trace (fetchNetworkInfo w) = [] \/ trace (fetchNetworkInfo w) = [ConsoleError].
Proof.
  unfold fetchNetworkInfo.
  destruct (networkInfoFetch w) as [[data | e] | e]; intros H;
    [| now right ..].
  destruct H as [H | H]; [| now destruct (H data)].
  destruct (H data eq_refl) as (success & S & T).
  cbn [await bind try_catch app]. rewrite S.
  cbn [await bind try_catch app]. rewrite T. now left.
Qed.

(** C9, on the response [{success: true, ip: "203.0.113.7",
    isp: "Example ISP"}]: reading [data.connection.isp] throws, the
    [catch] logs it, and nothing is stored; the top-level [isp] of the
    response is never read. *)
Theorem C9_response_without_connection :
  getProp flatResponse "success" = Normal (JBool true)
  /\ getProp flatResponse "isp" = Normal (JStr "Example ISP")
  /\ getProp flatResponse "connection" = Normal JUndefined
  /\ fetchNetworkInfo (withNetworkInfo world1 (Normal (Normal flatResponse)))
     = ([ConsoleError], Normal tt)
  /\ ipInfo (exec initialSession
               (trace (fetchNetworkInfo
                         (withNetworkInfo world1 (Normal (Normal flatResponse))))))
     = None.
Proof. repeat split; vm_compute; reflexivity. Qed.

(** * Further properties *)

(** ** What a run leaves behind *)

Lemma runEffects_only (w : World) (dlSpeed : number) :
  only noIpVars (runEffects w (trace (runDownloadTest w)) dlSpeed).
Proof.
  unfold runEffects. repeat apply only_app; try (repeat constructor; fail).
  - apply (only_weaken pingVars); [now intros [] | apply runPingTest_only].
  - apply (only_weaken downloadVars); [now intros [] | apply runDownloadTest_only].
Qed.

Lemma progress_final (w : World) (s0 : Session) :
  progress (exec s0 (trace (runTest w))) = ofZ 100.
Proof.
  destruct (runDownloadTest_returns w) as [dlSpeed D].
  rewrite (runTest_trace w dlSpeed D). unfold runEffects.
  do 6 rewrite exec_app.
  match goal with
  | |- progress (exec ?s _) = _ => generalize s
  end.
  intros s. reflexivity.
Qed.

Lemma download_error (w : World) :
  error (exec initialSession (trace (runDownloadTest w)))
  = if downloadThrows w
    then Some "Speed test failed. Please try again."
    else None.
Proof.
  unfold downloadThrows.
  destruct (downloadFetch w) as [response | e] eqn:F.
  - destruct (ok response) eqn:O.
    + destruct (body response) as [reader |] eqn:B.
      * rewrite (runDownloadTest_stream w response reader F O B).
        destruct (Spec.completes reader); cbn [trace fst andb negb].
        -- destruct (only_states downloadVars _ initialSession
                       (chunkEffects_only (contentLengthOf response) 0 reader))
             as [_ A].
           assert (P : only progressVars
                         (chunkEffects (contentLengthOf response) 0 reader)).
           { unfold chunkEffects.
             generalize (Spec.runningTotals 0 reader).
             induction l; constructor; [reflexivity | assumption]. }
           destruct (only_states progressVars _ initialSession P) as [_ [_ _ _ _ _ _ _ _ E]].
           now rewrite (E eq_refl).
        -- rewrite exec_app. reflexivity.
      * now rewrite (runDownloadTest_noReader w response F O B).
    + rewrite runDownloadTest_initialFailure
        by (unfold initialFailure; now rewrite F, O).
      reflexivity.
  - rewrite runDownloadTest_initialFailure
      by (unfold initialFailure; now rewrite F).
    reflexivity.
Qed.

(** X1: a run replaces the results of the run before. The session it ends
    in keeps the network information it started with, has the progress at
    100, and is otherwise the same whatever the session it started from:
    no result, error or flag of an earlier run survives. *)
Theorem run_replaces_results (w : World) (s0 s0' : Session) :
  ipInfo (exec s0 (trace (runTest w))) = ipInfo s0
  /\ progress (exec s0 (trace (runTest w))) = ofZ 100
  /\ downloadSpeed (exec s0 (trace (runTest w)))
     = downloadSpeed (exec s0' (trace (runTest w)))
  /\ uploadSpeed (exec s0 (trace (runTest w)))
     = uploadSpeed (exec s0' (trace (runTest w)))
  /\ ping (exec s0 (trace (runTest w))) = ping (exec s0' (trace (runTest w)))
  /\ jitter (exec s0 (trace (runTest w))) = jitter (exec s0' (trace (runTest w)))
  /\ error (exec s0 (trace (runTest w))) = error (exec s0' (trace (runTest w)))
  /\ isTesting (exec s0 (trace (runTest w)))
     = isTesting (exec s0' (trace (runTest w)))
  /\ phase (exec s0 (trace (runTest w))) = phase (exec s0' (trace (runTest w))).
Proof.
  destruct (runDownloadTest_returns w) as [dlSpeed D].
  pose proof (runTest_final w s0 dlSpeed D) as (P & T & DL & UL & PI & J).
  pose proof (runTest_final w s0' dlSpeed D) as (P' & T' & DL' & UL' & PI' & J').
  split.
  { rewrite (runTest_trace w dlSpeed D).
    destruct (only_states noIpVars _ s0 (runEffects_only w dlSpeed))
      as [_ [_ _ _ _ A _ _ _ _]].
    apply A. reflexivity. }
  split; [apply progress_final |].
  rewrite DL, DL', UL, UL', PI, PI', J, J', T, T', P, P', !error_final.
  repeat (match goal with |- _ /\ _ => split end); reflexivity.
Qed.

(** X2: the error a run ends with is the one of its own download: the
    message when the response was ok and its body was missing or failed
    while being read, and null in every other case, whatever the error
    the session held before. When the message is set the download result
    is 0. *)
Theorem run_error (w : World) (s0 : Session) :
  error (exec s0 (trace (runTest w)))
  = (if downloadThrows w
     then Some "Speed test failed. Please try again."
     else None)
  /\ (downloadThrows w = true ->
      downloadSpeed (exec s0 (trace (runTest w))) = Some (ofZ 0)).
Proof.
  split; [rewrite error_final; apply download_error |].
  intros H. unfold downloadThrows in H.
  destruct (downloadFetch w) as [response | e] eqn:F; [| discriminate].
  apply andb_true_iff in H as [O H].
  assert (D : completion (runDownloadTest w) = Normal (ofZ 0)).
  { destruct (body response) as [reader |] eqn:B.
    - rewrite (runDownloadTest_stream w response reader F O B).
      apply negb_true_iff in H. now rewrite H.
    - now rewrite (runDownloadTest_noReader w response F O B). }
  now pose proof (runTest_final w s0 _ D) as (_ & _ & DL & _).
Qed.

Lemma run_error_witness :
  downloadSpeed
    (exec initialSession
       (trace (runTest (withDownload world1
                          (Normal {| ok := true; contentLengthHeader := None;
                                     body := None |})))))
  = Some (ofZ 0).
Proof.
  apply (proj2 (run_error (withDownload world1
                             (Normal {| ok := true; contentLengthHeader := None;
                                        body := None |}))
                  initialSession)).
  reflexivity.
Defined.

(** ** The progress of a download *)

Lemma progressAt_pos (c : Qc) (n : N) :
  (0 < c)%Qc -> Spec.progressAt (Fin c) n = Fin (percent c n).
Proof.
  intros H. unfold Spec.progressAt, Math.min, ofN, ofZ, percent.
  cbn [fold_left Number.div]. rewrite (Qc_sgn_pos c H).
  cbn [Number.mul].
  change (Math.min2 PInf (Fin (Qc_of_Z 100))) with (Fin (Qc_of_Z 100)).
  apply min2_Fin.
Qed.

Lemma scaled_mono (c : Qc) (n m : N) :
  (0 < c)%Qc -> (n <= m)%N ->
  (Qc_of_Z (Z.of_N n) / c * Qc_of_Z 100 <= Qc_of_Z (Z.of_N m) / c * Qc_of_Z 100)%Qc.
Proof.
  intros H L. unfold Qcdiv.
  apply Qcmult_le_compat_r; [apply Qcmult_le_compat_r |].
  - apply (proj1 (Z2Qc_inj_le _ _)). lia.
  - apply Qclt_le_weak, Qcinv_pos, H.
  - rewrite <- Z2Qc_inj_0. apply (proj1 (Z2Qc_inj_le _ _)). lia.
Qed.

Lemma percent_bounds (c : Qc) (n : N) :
  (0 < c)%Qc -> (0 <= percent c n /\ percent c n <= Qc_of_Z 100)%Qc.
Proof.
  intros H. unfold percent.
  assert (P : (0 <= Qc_of_Z (Z.of_N n) / c * Qc_of_Z 100)%Qc).
  { pose proof (scaled_mono c 0 n H (N.le_0_l n)) as L.
    replace (Qc_of_Z (Z.of_N 0) / c * Qc_of_Z 100)%Qc with 0%Qc in L; [exact L |].
    change (Z.of_N 0) with 0%Z. rewrite Z2Qc_inj_0. unfold Qcdiv. ring. }
  destruct (Qc_ltb _ (Qc_of_Z 100)) eqn:E.
  - apply Qc_ltb_lt in E. split; [exact P | now apply Qclt_le_weak].
  - split; [| apply Qcle_refl].
    rewrite <- Z2Qc_inj_0. apply (proj1 (Z2Qc_inj_le _ _)). lia.
Qed.

Lemma percent_mono (c : Qc) (n m : N) :
  (0 < c)%Qc -> (n <= m)%N -> (percent c n <= percent c m)%Qc.
Proof.
  intros H L. pose proof (scaled_mono c n m H L) as S. unfold percent.
  destruct (Qc_ltb (Qc_of_Z (Z.of_N n) / c * Qc_of_Z 100) (Qc_of_Z 100)) eqn:En;
    destruct (Qc_ltb (Qc_of_Z (Z.of_N m) / c * Qc_of_Z 100) (Qc_of_Z 100)) eqn:Em.
  - exact S.
  - apply Qc_ltb_lt in En. now apply Qclt_le_weak.
  - apply Qc_ltb_ge in En. apply Qc_ltb_lt in Em.
    exfalso. apply (Qclt_not_le _ _ Em). eapply Qcle_trans; eassumption.
  - apply Qcle_refl.
Qed.

Lemma percent_full (c : Qc) (n : N) :
  (0 < c)%Qc -> (c <= Qc_of_Z (Z.of_N n))%Qc -> percent c n = Qc_of_Z 100.
Proof.
  intros H L. unfold percent.
  destruct (Qc_ltb _ (Qc_of_Z 100)) eqn:E; [| reflexivity].
  apply Qc_ltb_lt in E. exfalso. apply (Qclt_not_le _ _ E).
  assert (G : (1 <= Qc_of_Z (Z.of_N n) / c)%Qc).
  { apply (Qcmult_lt_0_le_reg_r _ _ c H).
    rewrite Qcmult_1_l. unfold Qcdiv.
    rewrite <- Qcmult_assoc, (Qcmult_comm (/ c)), Qcmult_inv_r, Qcmult_1_r;
      [exact L |].
    intros ->. now apply (Qclt_not_eq 0 0 H). }
  rewrite <- (Qcmult_1_l (Qc_of_Z 100)) at 1.
  apply Qcmult_le_compat_r; [exact G |].
  rewrite <- Z2Qc_inj_0. apply (proj1 (Z2Qc_inj_le _ _)). lia.
Qed.

Lemma runningTotals_from (received : N) (reader : BodyStream) :
  Forall (fun n => (received <= n)%N) (Spec.runningTotals received reader)
  /\ StronglySorted N.le (Spec.runningTotals received reader).
Proof.
  revert received. induction reader as [| | k rest IH]; intros received;
    cbn [Spec.runningTotals].
  - split; constructor.
  - split; constructor.
  - destruct (IH (received + k)%N) as [F S]. split.
    + constructor; [lia |]. eapply Forall_impl; [exact F |].
      intros n; cbn beta; lia.
    + constructor; [exact S | exact F].
Qed.

Lemma progressWrites_app (es es' : list Effect) :
  progressWrites (es ++ es') = progressWrites es ++ progressWrites es'.
Proof. apply omap_app. Qed.

Lemma progressWrites_chunkEffects (contentLength : number) (received : N)
    (reader : BodyStream) :
  progressWrites (chunkEffects contentLength received reader)
  = map (Spec.progressAt contentLength) (Spec.runningTotals received reader).
Proof.
  unfold chunkEffects. generalize (Spec.runningTotals received reader).
  induction l as [| n l IH]; [reflexivity |]. cbn. f_equal. exact IH.
Qed.

Lemma runDownloadTest_progressWrites (w : World) (response : Response)
    (reader : BodyStream) :
  downloadFetch w = Normal response -> ok response = true ->
  body response = Some reader ->
  progressWrites (trace (runDownloadTest w))
  = map (Spec.progressAt (contentLengthOf response)) (Spec.runningTotals 0 reader).
Proof.
  intros F O B. rewrite (runDownloadTest_stream w response reader F O B).
  destruct (Spec.completes reader); cbn [trace fst].
  - apply progressWrites_chunkEffects.
  - rewrite progressWrites_app, progressWrites_chunkEffects. apply app_nil_r.
Qed.



(** ** The figure of a download *)

Lemma round_nonneg (q : Qc) : (0 <= q)%Qc -> 0 <= Spec.round q.
Proof.
  intros H. unfold Spec.round. rewrite Qfloor_Qc_add.
  change 0 with (Qfloor 0). apply Qfloor_resp_le.
  apply (Qle_trans _ (this q)); [exact H |].
  rewrite <- (Qplus_0_r (this q)) at 1. apply Qplus_le_r. discriminate.
Qed.

Lemma round_mono (q r : Qc) : (q <= r)%Qc -> Spec.round q <= Spec.round r.
Proof.
  intros H. unfold Spec.round. rewrite !Qfloor_Qc_add.
  apply Qfloor_resp_le, Qplus_le_l, H.
Qed.

Lemma Qc_of_Z_nonneg (z : Z) : 0 <= z -> (0 <= Qc_of_Z z)%Qc.
Proof. intros H. rewrite <- Z2Qc_inj_0. now apply (proj1 (Z2Qc_inj_le _ _)). Qed.

Lemma Qc_of_Z_pos (z : Z) : 0 < z -> (0 < Qc_of_Z z)%Qc.
Proof. intros H. rewrite <- Z2Qc_inj_0. now apply (proj1 (Z2Qc_inj_lt _ _)). Qed.

Lemma Qcdiv_nonneg (a b : Qc) : (0 <= a)%Qc -> (0 < b)%Qc -> (0 <= a / b)%Qc.
Proof.
  intros A B. unfold Qcdiv. rewrite <- (Qcmult_0_l (/ b)).
  apply Qcmult_le_compat_r; [exact A |]. apply Qclt_le_weak, Qcinv_pos, B.
Qed.

Lemma Qcdiv_pos (a b : Qc) : (0 < a)%Qc -> (0 < b)%Qc -> (0 < a / b)%Qc.
Proof.
  intros A B. unfold Qcdiv. rewrite <- (Qcmult_0_l (/ b)).
  apply Qcmult_lt_compat_r; [apply Qcinv_pos, B | exact A].
Qed.

Lemma div_Fin_pos (a b : Qc) : (0 < b)%Qc -> (Fin a / Fin b)%js = Fin (a / b)%Qc.
Proof. intros H. cbn [Number.div]. now rewrite (Qc_sgn_pos b H). Qed.

(** The megabits per second of [n] bytes in [millis] milliseconds. *)
Lemma throughput_positive_time (n : N) (millis : Qc) :
  (0 < millis)%Qc ->
  Spec.throughputMbps n (Fin millis / ofZ 1000)%js
  = ofZ (Spec.round (Qc_of_Z (Z.of_N n) * Qc_of_Z 8
                     / (millis / Qc_of_Z 1000) / Qc_of_Z 1048576)%Qc).
Proof.
  intros H. unfold Spec.throughputMbps, ofN, ofZ.
  rewrite (div_Fin_pos millis) by (apply Qc_of_Z_pos; lia).
  change (Fin (Qc_of_Z (Z.of_N n)) * Fin (Qc_of_Z 8))%js
    with (Fin (Qc_of_Z (Z.of_N n) * Qc_of_Z 8)%Qc).
  rewrite div_Fin_pos by (apply Qcdiv_pos; [exact H | apply Qc_of_Z_pos; lia]).
  rewrite div_Fin_pos by (apply Qc_of_Z_pos; lia).
  apply round_Fin.
Qed.

Lemma throughput_no_time (n : N) :
  Spec.throughputMbps n (Fin 0%Qc / ofZ 1000)%js
  = if (n =? 0)%N then NaN else PInf.
Proof.
  unfold Spec.throughputMbps, ofN, ofZ.
  rewrite (div_Fin_pos 0) by (apply Qc_of_Z_pos; lia).
  replace (0 / Qc_of_Z 1000)%Qc with 0%Qc by (unfold Qcdiv; ring).
  change (Fin (Qc_of_Z (Z.of_N n)) * Fin (Qc_of_Z 8))%js
    with (Fin (Qc_of_Z (Z.of_N n) * Qc_of_Z 8)%Qc).
  destruct (N.eqb_spec n 0) as [-> | Hn].
  - reflexivity.
  - cbn [Number.div]. change (Qc_sgn 0%Qc) with Eq. cbv iota.
    rewrite (Qc_sgn_pos (Qc_of_Z (Z.of_N n) * Qc_of_Z 8)).
    + cbn [Number.signed_inf Number.div].
      rewrite (Qc_sgn_pos (Qc_of_Z 1048576)) by (apply Qc_of_Z_pos; lia).
      reflexivity.
    + rewrite <- Z2Qc_inj_mul. apply Qc_of_Z_pos. lia.
Qed.



(** ** The latency figures, further *)

Lemma sum_nonneg (l : list Qc) : Forall (fun x => (0 <= x)%Qc) l -> (0 <= Spec.sum l)%Qc.
Proof.
  induction 1 as [| x l Hx Hl IH]; [apply Qcle_refl |].
  unfold Spec.sum. cbn [foldr]. now apply Qcplus_nonneg_nonneg.
Qed.

Lemma meanAbsDev_nonneg (x : Qc) (l : list Qc) : (0 <= Spec.meanAbsDev (x :: l))%Qc.
Proof.
  unfold Spec.meanAbsDev, Spec.mean. apply Qcdiv_nonneg.
  - apply sum_nonneg, Forall_map, Forall_forall. intros y _.
    apply Qcabs.Qcabs_nonneg.
  - apply Qc_of_Z_pos. rewrite length_map. cbn [length]. lia.
Qed.



Lemma minimum_replicate (x : Qc) (n : nat) : Spec.minimum x (replicate n x) = x.
Proof.
  induction n as [| n IH]; [reflexivity |].
  cbn [replicate Spec.minimum]. rewrite IH.
  now destruct (Qc_leb x x).
Qed.

Lemma sum_replicate (x : Qc) (n : nat) :
  Spec.sum (replicate n x) = (Qc_of_Z (Z.of_nat n) * x)%Qc.
Proof.
  induction n as [| n IH].
  - unfold Spec.sum. cbn [replicate foldr]. change (Z.of_nat 0) with 0.
    rewrite Z2Qc_inj_0. ring.
  - unfold Spec.sum in *. cbn [replicate foldr]. rewrite IH.
    rewrite Nat2Z.inj_succ, <- Z.add_1_r, Z2Qc_inj_add, Z2Qc_inj_1. ring.
Qed.

Lemma mean_replicate (x : Qc) (n : nat) : Spec.mean (replicate (S n) x) = x.
Proof.
  unfold Spec.mean. rewrite sum_replicate, length_replicate.
  rewrite Qcmult_comm. apply Qcdiv_mult_l.
  intros E. assert (Z.of_nat (S n) = 0); [| lia].
  apply Z2Qc_inj. now rewrite Z2Qc_inj_0.
Qed.



Lemma probeErrors_count (w : World) (n i : nat) :
  (length (omap (fun j => Spec.sample (pingProbe w j)) (seq i n)) <= n)%nat
  /\ probeErrors w i n
     = replicate
         (n - length (omap (fun j => Spec.sample (pingProbe w j)) (seq i n)))
         ConsoleError.
Proof.
  revert i. induction n as [| n IH]; intros i; [now split |].
  destruct (IH (S i)) as [L E].
  unfold probeErrors in *. cbn [seq flat_map omap list_omap].
  change (list_omap _ _ ?f ?l) with (omap f l). rewrite E.
  destruct (Spec.sample (pingProbe w i)); cbn [length app].
  - split; [lia | reflexivity].
  - split; [lia |].
    replace (S n - length (omap (fun j => Spec.sample (pingProbe w j)) (seq (S i) n)))%nat
      with (S (n - length (omap (fun j => Spec.sample (pingProbe w j)) (seq (S i) n))))
      by lia.
    reflexivity.
Qed.

(** X7: the ping phase logs one [console.error] for each probe that
    failed, all of them before it stores anything, and stores the ping,
    then the jitter, only if a probe went through: with the five probes
    failing it makes five logs and no setter call. At most five samples
    are collected. *)
Theorem ping_phase_effects (w : World) :
  (length (Spec.samples w) <= 5)%nat
  /\ trace (runPingTest w)
     = replicate (5 - length (Spec.samples w)) ConsoleError
       ++ match Spec.samples w with
          | [] => []
          | x :: l =>
              [SetPing (Some (ofZ (Spec.round (Spec.minimum x l))));
               SetJitter (Some (ofZ (Spec.round (Spec.meanAbsDev (x :: l)))))]
          end.
Proof.
  destruct (probeErrors_count w 5 0) as [L E].
  split; [exact L |].
  rewrite runPingTest_run. cbn [trace fst]. unfold iterations. rewrite E.
  reflexivity.
Qed.

(** ** The simulations, further *)

Lemma intervalTicks_step (result : number) (c : Z) :
  intervalTicks result c
  = if Z_lt_ge_dec (c + 5) 100
    then bind (emit (SetProgress (ofZ (c + 5))))
           (fun _ => intervalTicks result (c + 5))
    else bind (emit (SetProgress (ofZ (c + 5)))) (fun _ => ret result).
Proof.
  rewrite intervalTicks_equation_1.
  destruct (Z_lt_ge_dec (c + 5) 100); reflexivity.
Qed.

(** X8: a simulation started with the progress at [c] always resolves
    with its result, after max(1, ceil((100 - c) / 5)) ticks that set the
    progress to c + 5, c + 10, ... and stop at the first value that
    reaches 100. From 0, as the download fallback and the upload start
    it, that is 20 ticks ending at exactly 100, whatever was measured. *)
Theorem simulation_ticks (result : number) (c : Z) :
  intervalTicks result c
  = (map (fun k => SetProgress (ofZ (c + 5 * k)))
       (seqZ 1 (Z.max 1 ((104 - c) / 5))),
     Normal result).
Proof.
  remember (Z.to_nat (100 - c)) as m eqn:Hm. revert c Hm.
  induction m as [m IH] using lt_wf_ind. intros c Hm.
  rewrite intervalTicks_step. destruct (Z_lt_ge_dec (c + 5) 100) as [L | G].
  - rewrite bind_emit.
    rewrite (IH (Z.to_nat (100 - (c + 5))) ltac:(lia) (c + 5) eq_refl).
    cbn [trace completion fst snd]. f_equal.
    assert (E : (104 - c) / 5 = 1 + (104 - (c + 5)) / 5).
    { replace (104 - c) with ((104 - (c + 5)) + 1 * 5) by lia.
      rewrite Z.div_add by lia. lia. }
    assert (P : 1 <= (104 - (c + 5)) / 5).
    { apply Z.div_le_lower_bound; lia. }
    rewrite E, !Z.max_r by lia.
    generalize dependent ((104 - (c + 5)) / 5). intros n' _ P.
    rewrite (seqZ_cons 1 (1 + n')) by lia. cbn [map].
    replace (Z.pred (1 + n')) with n' by lia.
    change (Z.succ 1) with (1 + 1).
    rewrite <- (fmap_add_seqZ 1 1), <- list_fmap_compose.
    f_equal.
    apply map_ext. intros k. cbn. do 2 f_equal. lia.
  - rewrite bind_emit. cbn [trace completion fst snd ret].
    assert (E : (104 - c) / 5 <= 1).
    { apply Z.lt_succ_r, Z.div_lt_upper_bound; lia. }
    rewrite Z.max_l by lia. reflexivity.
Qed.

(** ** The network information lookup, further *)

(** X9: the lookup never throws and makes at most one effect: nothing, one
    [console.error], or one [setIpInfo] with an object (never null) whose
    [isp] is truthy: the provider stored is never empty, null or
    undefined. It touches no other state variable. *)
Theorem lookup_effects (w : World) :
  completion (fetchNetworkInfo w) = Normal tt
  /\ (trace (fetchNetworkInfo w) = []
      \/ trace (fetchNetworkInfo w) = [ConsoleError]
      \/ exists info,
           trace (fetchNetworkInfo w) = [SetIpInfo (Some info)]
           /\ truthy (isp info) = true).
Proof.
  unfold fetchNetworkInfo.
  destruct (networkInfoFetch w) as [[data | e] | e];
    [| split; [reflexivity | right; left; reflexivity] ..].
  cbn [await bind try_catch app].
  destruct (getProp data "success") as [success | e];
    [| split; [reflexivity | right; left; reflexivity]].
  cbn [await bind try_catch app].
  destruct (truthy success); [| split; [reflexivity | left; reflexivity]].
  destruct (getProp data "ip") as [ip_ | e];
    [| split; [reflexivity | right; left; reflexivity]].
  cbn [await bind try_catch app].
  destruct (getProp data "connection") as [connection | e];
    [| split; [reflexivity | right; left; reflexivity]].
  cbn [await bind try_catch app].
  destruct (getProp connection "isp") as [connection_isp | e];
    [| split; [reflexivity | right; left; reflexivity]].
  cbn [await bind try_catch app].
  destruct (truthy connection_isp) eqn:T.
  { split; [reflexivity |]. right; right. eexists. split; [reflexivity | exact T]. }
  destruct (getProp data "isp") as [data_isp | e];
    [| split; [reflexivity | right; left; reflexivity]].
  split; [reflexivity |]. right; right. eexists. split; [reflexivity |].
  cbn [isp]. unfold or_else. destruct (truthy data_isp) eqn:T'; [exact T' | reflexivity].
Qed.

(** X10: for a response object that says [success] and has a
    [connection] object, the lookup stores the [ip] of the response
    (undefined when it has none) and, as provider, [connection.isp] if it
    is truthy, or else the top-level [isp] if it is truthy, or else
    ["Unknown ISP"]: an empty nested provider gives way to the top-level
    one. *)
Theorem lookup_stores (w : World) (s0 : Session)
    (props cprops : gmap string JSValue) :
  networkInfoFetch w = Normal (Normal (JObj props)) ->
  truthy (default JUndefined (props !! "success")) = true ->
  props !! "connection" = Some (JObj cprops) ->
  ipInfo (exec s0 (trace (fetchNetworkInfo w)))
  = Some {|
      ip := default JUndefined (props !! "ip");
      isp := if truthy (default JUndefined (cprops !! "isp"))
             then default JUndefined (cprops !! "isp")
             else if truthy (default JUndefined (props !! "isp"))
                  then default JUndefined (props !! "isp")
                  else JStr "Unknown ISP" |}.
Proof.
  intros F S C.
  rewrite (fetchNetworkInfo_stores w (JObj props)
             (default JUndefined (props !! "success"))
             (default JUndefined (props !! "ip"))
             (JObj cprops)
             (default JUndefined (cprops !! "isp"))
             (default JUndefined (props !! "isp")) F eq_refl S eq_refl).
  - reflexivity.
  - cbn [getProp]. now rewrite C.
  - reflexivity.
  - reflexivity.
Qed.

Lemma lookup_stores_witness :
  ipInfo (exec initialSession
            (trace (fetchNetworkInfo
                      (withNetworkInfo world1 (Normal (Normal nestedResponse))))))
  = Some {| ip := JStr "203.0.113.7"; isp := JStr "Example ISP" |}.
Proof.
  rewrite (lookup_stores (withNetworkInfo world1 (Normal (Normal nestedResponse)))
             initialSession
             (list_to_map
                [("success", JBool true); ("ip", JStr "203.0.113.7");
                 ("isp", JStr "Example ISP");
                 ("connection", JObj (list_to_map [("isp", JStr "")]))])
             (list_to_map [("isp", JStr "")])
             eq_refl).
  - vm_compute. reflexivity.
  - vm_compute. reflexivity.
  - vm_compute. reflexivity.
Defined.

(** X11: how the lookup fails. A response that does not say [success]
    is dropped in silence: nothing is stored and nothing is logged. A
    rejected request, a body that is not JSON, a [null] body, and a
    response that says [success] but has no [connection] (or a null one)
    each end in one [console.error], nothing stored: whatever top-level
    [isp] the response has is not used. *)
Theorem lookup_failures (w : World) :
  (forall data success,
     networkInfoFetch w = Normal (Normal data) ->
     getProp data "success" = Normal success -> truthy success = false ->
     trace (fetchNetworkInfo w) = [])
  /\ (forall e,
        networkInfoFetch w = Throw e \/ networkInfoFetch w = Normal (Throw e)
        \/ networkInfoFetch w = Normal (Normal JNull) ->
        trace (fetchNetworkInfo w) = [ConsoleError])
  /\ (forall data success connection,
        networkInfoFetch w = Normal (Normal data) ->
        getProp data "success" = Normal success -> truthy success = true ->
        getProp data "connection" = Normal connection ->
        connection = JUndefined \/ connection = JNull ->
        trace (fetchNetworkInfo w) = [ConsoleError]).
Proof.
  unfold fetchNetworkInfo. split; [| split].
  - intros data success F S T. rewrite F. cbn [await bind try_catch app].
    rewrite S. cbn [await bind try_catch app]. now rewrite T.
  - intros e [F | [F | F]]; rewrite F; reflexivity.
  - intros data success connection F S T C N. rewrite F.
    cbn [await bind try_catch app]. rewrite S.
    cbn [await bind try_catch app]. rewrite T.
    destruct (getProp data "ip") as [ip_ | e]; [| reflexivity].
    cbn [await bind try_catch app]. rewrite C.
    cbn [await bind try_catch app].
    destruct N as [-> | ->]; reflexivity.
Qed.

Lemma lookup_failures_witness :
  trace (fetchNetworkInfo (withNetworkInfo world1 (Normal (Normal flatResponse))))
  = [ConsoleError]
  /\ trace (fetchNetworkInfo
              (withNetworkInfo world1
                 (Normal (Normal (JObj (list_to_map [("success", JBool false)]))))))
     = [].
Proof.
  split.
  - apply (proj2 (proj2 (lookup_failures
                           (withNetworkInfo world1 (Normal (Normal flatResponse)))))
             flatResponse (JBool true) JUndefined eq_refl).
    + vm_compute. reflexivity.
    + reflexivity.
    + vm_compute. reflexivity.
    + left. reflexivity.
  - apply (proj1 (lookup_failures
                    (withNetworkInfo world1
                       (Normal (Normal (JObj (list_to_map [("success", JBool false)]))))))
             (JObj (list_to_map [("success", JBool false)])) (JBool false) eq_refl).
    + vm_compute. reflexivity.
    + reflexivity.
Defined.

(** ** Reading a decimal header *)

Lemma spanDigits_decimal (d : Decimal.uint) :
  StringToNumber.spanDigits 10 (decimalChars d) = (digitsOf d, []).
Proof.
  unfold decimalChars.
  induction d; [reflexivity | ..];
    cbn [DecimalString.NilEmpty.string_of_uint String.list_ascii_of_string
         StringToNumber.spanDigits digitsOf];
    rewrite IHd; reflexivity.
Qed.

Lemma digitsValue_acc (d : Decimal.uint) (p : positive) :
  fold_left (fun acc x => acc * 10 + x) (digitsOf d) (Z.pos p)
  = Z.pos (Pos.of_uint_acc d p).
Proof.
  revert p. induction d; intros p; [reflexivity | ..];
    cbn [digitsOf fold_left Pos.of_uint_acc];
    match goal with
    | |- fold_left _ _ ?a = Z.pos (Pos.of_uint_acc _ ?q) =>
        replace a with (Z.pos q) by lia
    end; apply IHd.
Qed.

Lemma digitsValue_decimal (d : Decimal.uint) :
  StringToNumber.digitsValue 10 (digitsOf d) = Z.of_N (N.of_uint d).
Proof.
  unfold StringToNumber.digitsValue, N.of_uint.
  induction d; [reflexivity | ..];
    cbn [digitsOf fold_left Pos.of_uint]; [exact IHd | ..];
    match goal with
    | |- fold_left _ _ ?a = Z.of_N (N.pos (Pos.of_uint_acc _ ?q)) =>
        change a with (Z.pos q)
    end; apply digitsValue_acc.
Qed.

Lemma decimalChars_plain (d : Decimal.uint) :
  Forall (fun c => StringToNumber.isWhiteSpace c = false) (decimalChars d).
Proof.
  unfold decimalChars.
  induction d; cbn [DecimalString.NilEmpty.string_of_uint String.list_ascii_of_string];
    constructor; solve [reflexivity | exact IHd].
Qed.

Lemma dropWhile_plain (l : list ascii) :
  Forall (fun c => StringToNumber.isWhiteSpace c = false) l ->
  StringToNumber.dropWhile StringToNumber.isWhiteSpace l = l.
Proof.
  intros H. destruct H as [| c r Hc Hr]; [reflexivity |].
  cbn [StringToNumber.dropWhile]. now rewrite Hc.
Qed.

Lemma trim_plain (l : list ascii) :
  Forall (fun c => StringToNumber.isWhiteSpace c = false) l ->
  StringToNumber.trim l = l.
Proof.
  intros H. unfold StringToNumber.trim.
  rewrite (dropWhile_plain l H).
  rewrite dropWhile_plain.
  - apply rev_involutive.
  - apply Forall_rev. exact H.
Qed.

Lemma toNumber_decimal (d : Decimal.uint) :
  d <> Decimal.Nil ->
  StringToNumber.toNumber (DecimalString.NilEmpty.string_of_uint d)
  = ofN (N.of_uint d).
Proof.
  intros Hd. unfold StringToNumber.toNumber.
  change (String.list_ascii_of_string (DecimalString.NilEmpty.string_of_uint d))
    with (decimalChars d).
  rewrite (trim_plain _ (decimalChars_plain d)).
  assert (U : StringToNumber.unsignedDecimal (decimalChars d) = ofN (N.of_uint d)).
  { unfold StringToNumber.unsignedDecimal.
    rewrite spanDigits_decimal.
    assert (I : bool_decide (decimalChars d = String.list_ascii_of_string "Infinity")
                = false).
    { apply bool_decide_eq_false. destruct d; discriminate. }
    rewrite I. rewrite app_nil_r.
    cbn [StringToNumber.exponentPart length].
    rewrite digitsValue_decimal.
    assert (P : StringToNumber.pow10 (0 - Z.of_nat 0) = 1%Qc).
    { apply Qc_is_canon. reflexivity. }
    rewrite P, Qcmult_1_r.
    destruct (digitsOf d) eqn:E; [destruct d; try discriminate; congruence |].
    reflexivity. }
  rewrite <- U.
  unfold StringToNumber.strNumericLiteral.
  destruct d as [| l | l | l | l | l | l | l | l | l | l]; [congruence | ..];
    destruct l; reflexivity.
Qed.

(** X12: a [Content-Length] header made of decimal digits is read as the
    number it writes, leading zeros allowed, up to [2^53] (the range in
    which every integer is a JavaScript number); so the header that
    prints a length [n] is read back as [n]. *)
Theorem decimal_header (response : Response) :
  (forall d : Decimal.uint,
     d <> Decimal.Nil -> (N.of_uint d <= 2 ^ 53)%N ->
     contentLengthHeader response
     = Some (DecimalString.NilEmpty.string_of_uint d) ->
     contentLengthOf response = ofN (N.of_uint d))
  /\ (forall n : N,
        (n <= 2 ^ 53)%N ->
        contentLengthHeader response
        = Some (DecimalString.NilEmpty.string_of_uint (N.to_uint n)) ->
        contentLengthOf response = ofN n).
Proof.
  assert (G : forall d : Decimal.uint,
             d <> Decimal.Nil ->
             contentLengthHeader response
             = Some (DecimalString.NilEmpty.string_of_uint d) ->
             contentLengthOf response = ofN (N.of_uint d)).
  { intros d Hd H. unfold contentLengthOf. rewrite H.
    assert (E : bool_decide (DecimalString.NilEmpty.string_of_uint d = "") = false).
    { apply bool_decide_eq_false. destruct d; [congruence | discriminate ..]. }
    rewrite E. apply toNumber_decimal. exact Hd. }
  split.
  - intros d Hd _ H. apply G; assumption.
  - intros n _ H. rewrite <- (DecimalN.Unsigned.of_to n) at 1.
    apply G; [| exact H].
    destruct n as [| p]; [discriminate |].
    cbn [N.to_uint]. intros E.
    pose proof (DecimalPos.Unsigned.of_to p) as O. rewrite E in O. discriminate.
Qed.

Lemma decimal_header_witness :
  contentLengthOf longerResponse = ofN 3000
  /\ contentLengthOf
       {| ok := true; contentLengthHeader := Some "007"; body := None |}
     = ofN 7.
Proof.
  split.
  - apply (proj2 (decimal_header longerResponse) 3000%N).
    + vm_compute. discriminate.
    + reflexivity.
  - apply (proj1 (decimal_header
                    {| ok := true; contentLengthHeader := Some "007"; body := None |})
             (Decimal.D0 (Decimal.D0 (Decimal.D7 Decimal.Nil)))).
    + discriminate.
    + vm_compute. discriminate.
    + reflexivity.
Defined.

(** ** The view during a run *)

Lemma run_testing (w : World) :
  exists mid,
    trace (runTest w) = (SetIsTesting true :: mid) ++ [SetIsTesting false]
    /\ only noTestingVars mid.
Proof.
  destruct (runDownloadTest_returns w) as [dlSpeed D].
  exists ([SetError None; SetDownloadSpeed None; SetUploadSpeed None;
           SetPing None; SetJitter None; SetProgress (ofZ 0)]
          ++ [SetPhase Ping] ++ trace (runPingTest w)
          ++ [SetPhase Download; SetProgress (ofZ 0)]
          ++ trace (runDownloadTest w)
          ++ [SetDownloadSpeed (Some dlSpeed); SetPhase Upload; SetProgress (ofZ 0)]
          ++ tickEffects
          ++ [SetUploadSpeed (Some (uploadSpeedOf w)); SetPhase Complete]).
  split.
  - rewrite (runTest_trace w dlSpeed D). unfold runEffects, resets.
    cbn [app]. repeat (rewrite <- app_assoc; cbn [app]). reflexivity.
  - repeat apply only_app; try (repeat constructor; fail).
    + apply (only_weaken pingVars); [now intros [] | apply runPingTest_only].
    + apply (only_weaken downloadVars); [now intros [] | apply runDownloadTest_only].
Qed.

(** X13: at every session a run passes through before its last effect,
    [Controls] renders a disabled button without a click handler, so that
    no second run can be started from it while one is in progress; at the
    session the run ends in, it renders the start button again, with
    [runTest] as its handler. This holds from any session the run starts
    in. *)
Theorem controls_during_run (styles : string -> string) (w : World)
    (s0 : Session) :
  exists before,
    states s0 (trace (runTest w)) = before ++ [exec s0 (trace (runTest w))]
    /\ before <> []
    /\ Forall (fun s => exists label,
                 Controls styles (Some s) = Normal (busyControls styles label))
         before
    /\ Controls styles (Some (exec s0 (trace (runTest w))))
       = Normal
           (Element "div" (styles "controls") false None
              [Element "button" (styles "button") false (Some RunTest)
                 [Text "Start Speed Test"]]).
Proof.
  destruct (run_testing w) as (mid & E & O). rewrite E.
  exists (states s0 (SetIsTesting true :: mid)).
  rewrite states_app, exec_app.
  generalize dependent (trace (runTest w)). intros _ _.
  split; [reflexivity |].
  split; [discriminate |].
  split.
  - cbn [states]. constructor.
    + eexists. unfold Controls, useSpeed, busyControls. reflexivity.
    + destruct (only_states noTestingVars mid
                  (apply_effect s0 (SetIsTesting true)) O) as [A _].
      eapply Forall_impl; [exact A |]. intros s G. cbn beta.
      pose proof (agree_isTesting _ _ _ G eq_refl) as T.
      unfold Controls, useSpeed, busyControls. rewrite T.
      eexists. reflexivity.
  - generalize (exec s0 (SetIsTesting true :: mid)). intros s. reflexivity.
Qed.

(** X14: a run takes a failure message of an earlier run off the view
    with its second effect: [ErrorMessage] renders nothing at any session
    from there to the start of the download. At the session the run ends
    in it renders the failure paragraph exactly when the download threw
    (a response without a reader, or a stream that failed), and nothing
    otherwise. *)
Theorem error_message_in_run (styles : string -> string) (w : World)
    (s0 : Session) :
  (exists rest,
     trace (runTest w)
     = [SetIsTesting true; SetError None] ++ beforeDownload w ++ rest
     /\ Forall (fun s => ErrorMessage styles (Some s) = Normal Null)
          (states (exec s0 [SetIsTesting true])
             (SetError None :: beforeDownload w)))
  /\ ErrorMessage styles (Some (exec s0 (trace (runTest w))))
     = Normal (if downloadThrows w
               then Element "p" (styles "error") false None
                      [Text "Speed test failed. Please try again."]
               else Null).
Proof.
  split.
  - destruct (runDownloadTest_returns w) as [dlSpeed D].
    exists (trace (runDownloadTest w)
            ++ [SetDownloadSpeed (Some dlSpeed); SetPhase Upload; SetProgress (ofZ 0)]
            ++ tickEffects
            ++ [SetUploadSpeed (Some (uploadSpeedOf w)); SetPhase Complete;
                SetIsTesting false]).
    split.
    + rewrite (runTest_trace w dlSpeed D). unfold runEffects, resets, beforeDownload.
      cbn [app]. repeat (rewrite <- app_assoc; cbn [app]). reflexivity.
    + assert (O : only noErrorVars (beforeDownload w)).
      { unfold beforeDownload. repeat apply only_app; try (repeat constructor; fail).
        apply (only_weaken pingVars); [now intros [] | apply runPingTest_only]. }
      cbn [states]. constructor; [reflexivity |].
      destruct (only_states noErrorVars (beforeDownload w)
                  (apply_effect (exec s0 [SetIsTesting true]) (SetError None)) O)
        as [A _].
      eapply Forall_impl; [exact A |]. intros s G. cbn beta.
      pose proof (agree_error _ _ _ G eq_refl) as T.
      unfold ErrorMessage, useSpeed. rewrite T. reflexivity.
  - unfold ErrorMessage, useSpeed.
    rewrite error_final, download_error.
    destruct (downloadThrows w); reflexivity.
Qed.

(** ** The lookup and a run, side by side *)

Lemma interleave_agree_left (vars : Var -> bool) (schedule : list bool)
    (a b : list Effect) (s s' : Session) :
  only vars b -> agree_off vars s s' ->
  agree_off vars (exec s a) (exec s' (interleave schedule a b)).
Proof.
  revert a b s s'.
  assert (Hb : forall b s s', only vars b -> agree_off vars s s' ->
                 agree_off vars s (exec s' b)).
  { intros b s s' Ob H. eapply agree_off_trans; [exact H |].
    destruct (only_states vars b s' Ob) as [_ G]. exact G. }
  induction schedule as [| c sch IH]; intros a b s s' Ob H.
  - cbn [interleave]. rewrite exec_app. apply Hb; [exact Ob |].
    apply agree_off_exec, H.
  - destruct c, a as [| e a'], b as [| e' b']; cbn [interleave].
    + exact H.
    + apply (Hb _ s s' Ob H).
    + apply (IH a' [] (apply_effect s e)); [assumption |].
      now apply agree_off_apply.
    + apply (IH a' (e' :: b') (apply_effect s e)); [assumption |].
      now apply agree_off_apply.
    + exact H.
    + inversion Ob; subst. apply (IH [] b' s); [assumption |].
      now apply agree_off_step.
    + apply agree_off_exec, H.
    + inversion Ob; subst. apply (IH (e :: a') b' s); [assumption |].
      now apply agree_off_step.
Qed.

Lemma runTest_only (w : World) : only noIpVars (trace (runTest w)).
Proof.
  destruct (runDownloadTest_returns w) as [dlSpeed D].
  rewrite (runTest_trace w dlSpeed D). apply runEffects_only.
Qed.

(** X15: the lookup started when the component mounts and a run do not
    disturb each other. In whatever order their effects arrive, the
    session they leave is the one the run alone leaves, with the network
    information the lookup alone leaves. *)
Theorem lookup_beside_run (w : World) (s0 : Session) (schedule : list bool) :
  exec s0 (interleave schedule (trace (fetchNetworkInfo w)) (trace (runTest w)))
  = apply_effect (exec s0 (trace (runTest w)))
      (SetIpInfo (ipInfo (exec s0 (trace (fetchNetworkInfo w))))).
Proof.
  pose proof (interleave_agree ipVars schedule _ (trace (runTest w)) s0 s0
                (fetchNetworkInfo_only w) (agree_off_refl _ _)) as A.
  pose proof (interleave_agree_left noIpVars schedule
                (trace (fetchNetworkInfo w)) _ s0 s0
                (runTest_only w) (agree_off_refl _ _)) as B.
  generalize dependent (exec s0 (interleave schedule (trace (fetchNetworkInfo w))
                                   (trace (runTest w)))).
  generalize (exec s0 (trace (runTest w))).
  generalize (exec s0 (trace (fetchNetworkInfo w))).
  intros look run both [A1 A2 A3 A4 _ A6 A7 A8 A9] [_ _ _ _ B5 _ _ _ _].
  destruct both, run; cbn in *.
  rewrite (A1 eq_refl), (A2 eq_refl), (A3 eq_refl), (A4 eq_refl), (B5 eq_refl),
    (A6 eq_refl), (A7 eq_refl), (A8 eq_refl), (A9 eq_refl).
  reflexivity.
Qed.
